(** * macOS app usage tracker: the tracking session and the usage store

    A shallow embedding of [main.js] (class [AppUsageTracker]) and
    [database.js] (class [Database]), and the properties of the
    specification proved, or refuted, on it.

    Conventions of the embedding.
    - A JavaScript integer Number is a [Z].  Every integer quantity of the
      program (milliseconds since the epoch, seconds of usage, row counts)
      stays far below 2^53, where the arithmetic of doubles on integers is
      exact; the one place where the program leaves the integers, the
      percentage [(row.total_seconds / totalTime) * 100], is computed on
      IEEE 754 binary64 values ([PrimFloat]).
    - A [Date] is its time value, the milliseconds since the epoch; [null]
      is [None].
    - A promise is its outcome, [Resolved] or [Rejected]; [await] of a
      rejected promise throws, and a [try]/[catch] is a [match] on the
      outcome.
    - What the program asks of its environment (the clock, the foreground
      application, whether SQLite accepts a statement) is an argument of the
      function that asks. *)

From Stdlib Require Import ZArith List String Ascii Bool Lia.
From Stdlib Require Import Sorted Permutation DecimalString.
From Stdlib Require Import Floats.
Import ListNotations.

Local Open Scope string_scope.
Local Open Scope Z_scope.

(** ** The JavaScript primitives the program uses *)

Module Js.

(** [ToBoolean] of a value that is [null] or a string: [null] and the
    empty string are falsy. *)
Definition truthy (v : option string) : bool :=
  match v with
  | Some (String _ _) => true
  | _ => false
  end.

(** [a !== b] where [a] is [null] or a string and [b] is a string. *)
Definition strictNe (a : option string) (b : string) : bool :=
  match a with
  | Some s => negb (String.eqb s b)
  | None => true
  end.

(** [ToBoolean] of a value that is [null] or a [Date]: an object is
    truthy. *)
Definition truthyDate (d : option Z) : bool :=
  match d with
  | Some _ => true
  | None => false
  end.

(** [ToNumber] of a value that is [null] or a [Date]: [null] is 0. *)
Definition toNumber (d : option Z) : Z :=
  match d with
  | Some t => t
  | None => 0
  end.

(** [Number::toString] of an integer (below 10^21 in absolute value). *)
Definition toString (n : Z) : string :=
  NilZero.string_of_int (Z.to_int n).

(** The Number that holds the integer [n]. *)
Definition number (n : Z) : float :=
  if n <? 0 then PrimFloat.opp (PrimFloat.of_uint63 (Uint63.of_Z (- n)))
  else PrimFloat.of_uint63 (Uint63.of_Z n).

(** [Math.round]: the nearest integer, a tie going up.  A finite double
    is [±m * 2^e]; the result is [floor (x + 1/2)], computed exactly.
    (NaN and the infinities, which [Math.round] returns unchanged, do not
    arise from the quotient of a non-negative by a positive integer.) *)
Definition Math_round (x : float) : Z :=
  match Prim2SF x with
  | S754_finite s m e =>
      let n := if s then Z.neg m else Z.pos m in
      if 0 <=? e then n * 2 ^ e
      else (2 * n + 2 ^ (- e)) / 2 ^ (1 - e)
  | _ => 0
  end.

(** *** Dates: [Date.prototype.toISOString], up to the ['T'] *)

Definition msPerDay : Z := 24 * 60 * 60 * 1000.

(** [Day(t)], the day number of a time value. *)
Definition Day (t : Z) : Z := t / msPerDay.

(** Year, month (1-12) and day of the month (1-31) of a day number, in the
    proleptic Gregorian calendar: 400-year eras of 146097 days, counted
    from 1 March of year 0. *)
Definition civilFromDays (day : Z) : Z * Z * Z :=
  let z := day + 719468 in
  let era := z / 146097 in
  let doe := z - era * 146097 in
  let yoe := (doe - doe / 1460 + doe / 36524 - doe / 146096) / 365 in
  let doy := doe - (365 * yoe + yoe / 4 - yoe / 100) in
  let mp := (5 * doy + 2) / 153 in
  let d := doy - (153 * mp + 2) / 5 + 1 in
  let m := if mp <? 10 then mp + 3 else mp - 9 in
  let y := yoe + era * 400 + (if m <=? 2 then 1 else 0) in
  (y, m, d).

(** ECMAScript's own account of the calendar, against which
    [civilFromDays] is checked below ([civilFromDays_ecma]): the day number
    of 1 January of a year, the length of a year, and the day within the
    year on which a month (1-12, and 13 for the end of the year) starts. *)
Definition DayFromYear (y : Z) : Z :=
  365 * (y - 1970) + (y - 1969) / 4 - (y - 1901) / 100 + (y - 1601) / 400.

Definition DaysInYear (y : Z) : Z :=
  if negb (y mod 4 =? 0) then 365
  else if negb (y mod 100 =? 0) then 366
  else if negb (y mod 400 =? 0) then 365
  else 366.

Definition InLeapYear (y : Z) : Z :=
  if DaysInYear y =? 366 then 1 else 0.

Definition MonthStart (leap m : Z) : Z :=
  if m =? 1 then 0
  else if m =? 2 then 31
  else if m =? 3 then 59 + leap
  else if m =? 4 then 90 + leap
  else if m =? 5 then 120 + leap
  else if m =? 6 then 151 + leap
  else if m =? 7 then 181 + leap
  else if m =? 8 then 212 + leap
  else if m =? 9 then 243 + leap
  else if m =? 10 then 273 + leap
  else if m =? 11 then 304 + leap
  else if m =? 12 then 334 + leap
  else 365 + leap.

Fixpoint zeros (n : nat) : string :=
  match n with
  | O => ""
  | S n' => String "0" (zeros n')
  end.

(** A non-negative integer in decimal, padded with zeros to [width]. *)
Definition padStart (width : nat) (n : Z) : string :=
  let s := toString n in
  zeros (width - String.length s) ++ s.

(** Years 0 to 9999 are written with four digits, the others with a sign
    and six. *)
Definition isoYear (y : Z) : string :=
  if (0 <=? y) && (y <=? 9999) then padStart 4 y
  else (if y <? 0 then "-" else "+") ++ padStart 6 (Z.abs y).

(** [new Date(t).toISOString().split('T')[0]]: the calendar date of [t]
    in UTC. *)
Definition toISODate (t : Z) : string :=
  let '(y, m, d) := civilFromDays (Day t) in
  isoYear y ++ "-" ++ padStart 2 m ++ "-" ++ padStart 2 d.

(** The calendar date of [t] on a clock whose [getTimezoneOffset()] is
    [offsetMinutes] (UTC minus local time, in minutes): the date the
    local-time getters [getFullYear], [getMonth] and [getDate] give. *)
Definition toLocalDate (offsetMinutes t : Z) : string :=
  toISODate (t - offsetMinutes * 60000).

End Js.

(** ** database.js *)

(** The outcome of a promise. *)
Inductive Promise (A : Type) : Type :=
| Resolved (value : A)
| Rejected (err : string).
Arguments Resolved {A} value.
Arguments Rejected {A} err.

(** What SQLite answers to one statement: [err] of the callback. *)
Inductive SqliteResult : Type :=
| SQLITE_OK
| SQLITE_ERROR (err : string).

Module FormattedRow.
(** One element of [apps]. *)
Record t : Type := mk {
  appName : string;
  totalSeconds : Z;
  sessionCount : Z;
  totalTime : string;
  percentage : Z
}.
End FormattedRow.

Module Database.

(** A row of the table [usage_logs]. *)
Record UsageLog : Type := mkUsageLog {
  id : Z;
  app_name : string;
  duration_seconds : Z;
  logged_at : Z;   (* CURRENT_TIMESTAMP: the second of the insertion *)
  date : string
}.

(** The database file: the table, and the AUTOINCREMENT counter, which a
    DELETE does not reset. *)
Record t : Type := mk {
  usage_logs : list UsageLog;
  sqlite_sequence : Z
}.

Definition empty : t := mk [] 0.

(** [formatDuration(seconds)] *)
Definition formatDuration (seconds : Z) : string :=
  let hours := seconds / 3600 in
  let minutes := Z.rem seconds 3600 / 60 in
  let remainingSeconds := Z.rem seconds 60 in
  if 0 <? hours then
    Js.toString hours ++ "h " ++ Js.toString minutes ++ "m "
      ++ Js.toString remainingSeconds ++ "s"
  else if 0 <? minutes then
    Js.toString minutes ++ "m " ++ Js.toString remainingSeconds ++ "s"
  else
    Js.toString remainingSeconds ++ "s".

(** [logUsage(appName, durationSeconds)], called when the clock shows
    [clock] and SQLite answers [io].  The promise resolves to [lastID];
    the database after the call comes with it. *)
Definition logUsage (clock : Z) (io : SqliteResult)
    (appName : string) (durationSeconds : Z) (db : t) : Promise (t * Z) :=
  let date := Js.toISODate clock in
  match io with
  | SQLITE_ERROR err => Rejected err
  | SQLITE_OK =>
      let lastID := sqlite_sequence db + 1 in
      let row := mkUsageLog lastID appName durationSeconds (clock / 1000) date in
      Resolved (mk (usage_logs db ++ [row])%list lastID, lastID)
  end.

(** [clearAllData()] *)
Definition clearAllData (io : SqliteResult) (db : t) : Promise t :=
  match io with
  | SQLITE_ERROR err => Rejected err
  | SQLITE_OK => Resolved (mk [] (sqlite_sequence db))
  end.

(** *** The query of [getUsageStats]

    [SELECT app_name, SUM(duration_seconds) as total_seconds,
     COUNT( * ) as session_count FROM usage_logs [WHERE ...]
     GROUP BY app_name ORDER BY total_seconds DESC] *)

(** A row of the result set. *)
Record Row : Type := mkRow {
  row_app_name : string;
  total_seconds : Z;
  session_count : Z
}.

(** The three WHERE clauses of the five queries. *)
Inductive Where : Type :=
| DateEq (param : string)     (* WHERE date = ? *)
| DateGe (param : string)     (* WHERE date >= ? *)
| NoWhere.

(** TEXT values compare byte by byte. *)
Definition selects (w : Where) (r : UsageLog) : bool :=
  match w with
  | DateEq param => String.eqb (date r) param
  | DateGe param => String.leb param (date r)
  | NoWhere => true
  end.

(** GROUP BY app_name: a row joins the group of its name, or opens one. *)
Fixpoint addToGroup (name : string) (seconds : Z) (groups : list Row) : list Row :=
  match groups with
  | [] => [mkRow name seconds 1]
  | g :: rest =>
      if String.eqb (row_app_name g) name
      then mkRow name (total_seconds g + seconds) (session_count g + 1) :: rest
      else g :: addToGroup name seconds rest
  end.

Definition groupByAppName (rows : list UsageLog) : list Row :=
  fold_left (fun groups r => addToGroup (app_name r) (duration_seconds r) groups)
            rows [].

(** ORDER BY total_seconds DESC: a stable sort, greatest first. *)
Fixpoint insertDesc (r : Row) (sorted : list Row) : list Row :=
  match sorted with
  | [] => [r]
  | x :: rest =>
      if total_seconds r <? total_seconds x
      then x :: insertDesc r rest
      else r :: x :: rest
  end.

Definition orderByTotalDesc (rows : list Row) : list Row :=
  fold_right insertDesc [] rows.

Definition all (w : Where) (db : t) : list Row :=
  orderByTotalDesc (groupByAppName (filter (selects w) (usage_logs db))).

(** The [switch (period)]: which query, with which parameter. *)
Definition queryOf (clock : Z) (period : string) : Where :=
  let today := Js.toISODate clock in
  let yesterday := Js.toISODate (clock - 24 * 60 * 60 * 1000) in
  let weekAgo := Js.toISODate (clock - 7 * 24 * 60 * 60 * 1000) in
  if String.eqb period "today" then DateEq today
  else if String.eqb period "yesterday" then DateEq yesterday
  else if String.eqb period "week" then DateGe weekAgo
  else if String.eqb period "all" then NoWhere
  else DateEq today.

(** The result of [getUsageStats]. *)
Record UsageStats : Type := mkUsageStats {
  apps : list FormattedRow.t;
  totalTime : string;
  totalSeconds : Z;
  period : string
}.

(** [totalTime > 0 ? Math.round((row.total_seconds / totalTime) * 100) : 0],
    the division and the product on doubles. *)
Definition percentageOf (row_total totalTime : Z) : Z :=
  if 0 <? totalTime
  then Js.Math_round
         (PrimFloat.mul (PrimFloat.div (Js.number row_total) (Js.number totalTime))
                        (Js.number 100))
  else 0.

Definition formatRow (totalTime : Z) (row : Row) : FormattedRow.t :=
  FormattedRow.mk (row_app_name row) (total_seconds row) (session_count row)
                  (formatDuration (total_seconds row))
                  (percentageOf (total_seconds row) totalTime).

(** [getUsageStats(period)], called when the clock shows [clock] and
    SQLite answers [io]. *)
Definition getUsageStats (clock : Z) (io : SqliteResult)
    (period : string) (db : t) : Promise UsageStats :=
  let query := queryOf clock period in
  match io with
  | SQLITE_ERROR err => Rejected err
  | SQLITE_OK =>
      let rows := all query db in
      let totalTime := fold_left (fun sum row => sum + total_seconds row) rows 0 in
      let formattedRows := map (formatRow totalTime) rows in
      Resolved (mkUsageStats formattedRows (formatDuration totalTime) totalTime period)
  end.

End Database.

(** ** main.js: the tracking session *)

Module AppUsageTracker.

(** The tracker object, and next to it the two parts of its environment it
    acts upon: the intervals of the event loop that are set, and the
    ['usage-updated'] messages sent to the window. *)
Record t : Type := mk {
  db : Database.t;
  currentApp : option string;
  currentAppStartTime : option Z;
  trackingInterval : option nat;
  isTracking : bool;
  mainWindow : bool;          (* null, or the window *)
  intervals : list nat;       (* set by setInterval and not cleared *)
  timerCount : nat;           (* the handle the next setInterval returns *)
  usageUpdated : nat          (* messages sent on 'usage-updated' *)
}.

(** [new AppUsageTracker()], on the database [d]. *)
Definition create (d : Database.t) : t :=
  mk d None None None false false [] 0 0.

Definition withDb (d : Database.t) (a : t) : t :=
  mk d (currentApp a) (currentAppStartTime a) (trackingInterval a)
     (isTracking a) (mainWindow a) (intervals a) (timerCount a) (usageUpdated a).

Definition withCurrent (app : option string) (start : option Z) (a : t) : t :=
  mk (db a) app start (trackingInterval a)
     (isTracking a) (mainWindow a) (intervals a) (timerCount a) (usageUpdated a).

Definition withIsTracking (b : bool) (a : t) : t :=
  mk (db a) (currentApp a) (currentAppStartTime a) (trackingInterval a)
     b (mainWindow a) (intervals a) (timerCount a) (usageUpdated a).

(** [this.trackingInterval = setInterval(...)] *)
Definition setInterval (a : t) : t :=
  let handle := timerCount a in
  mk (db a) (currentApp a) (currentAppStartTime a) (Some handle)
     (isTracking a) (mainWindow a) (handle :: intervals a) (S handle) (usageUpdated a).

(** [clearInterval(this.trackingInterval); this.trackingInterval = null] *)
Definition clearInterval (handle : nat) (a : t) : t :=
  mk (db a) (currentApp a) (currentAppStartTime a) None
     (isTracking a) (mainWindow a)
     (filter (fun h => negb (Nat.eqb h handle)) (intervals a))
     (timerCount a) (usageUpdated a).

(** [sendUsageUpdate()] *)
Definition sendUsageUpdate (a : t) : t :=
  if mainWindow a then
    mk (db a) (currentApp a) (currentAppStartTime a) (trackingInterval a)
       (isTracking a) (mainWindow a) (intervals a) (timerCount a) (S (usageUpdated a))
  else a.

(** What one call of [trackCurrentApp] gets from its environment. *)
Record Sample : Type := mkSample {
  probe : Promise string;   (* getCurrentApp(): the trimmed name, or the error *)
  now : Z;                  (* new Date(), once the probe has answered *)
  clock : Z;                (* the clock when logUsage runs *)
  io : SqliteResult         (* SQLite's answer to the INSERT, when one is made *)
}.

(** The string of a value known to be one. *)
Definition str (v : option string) : string :=
  match v with
  | Some s => s
  | None => ""
  end.

(** [trackCurrentApp()].  Its body is one [try]: a rejected probe or a
    rejected INSERT ends it at the [await], and the [catch] only logs. *)
Definition trackCurrentApp (s : Sample) (a : t) : t :=
  match probe s with
  | Rejected _ => a
  | Resolved appName =>
      let logged : Promise t :=
        if Js.truthy (currentApp a) && Js.strictNe (currentApp a) appName then
          let usageTime := (now s - Js.toNumber (currentAppStartTime a)) / 1000 in
          if 0 <? usageTime then
            match Database.logUsage (clock s) (io s) (str (currentApp a)) usageTime (db a) with
            | Resolved (d, _) => Resolved (sendUsageUpdate (withDb d a))
            | Rejected err => Rejected err
            end
          else Resolved a
        else Resolved a in
      match logged with
      | Rejected _ => a
      | Resolved a1 =>
          if Js.strictNe (currentApp a1) appName
          then withCurrent (Some appName) (Some (now s)) a1
          else a1
      end
  end.

(** [startTracking()].  The call [this.trackCurrentApp()] returns at its
    first [await], before the probe has answered: what it does then is a
    step [trackCurrentApp] of its own in a run, like the calls the
    interval makes. *)
Definition startTracking (a : t) : t :=
  if isTracking a then a
  else setInterval (withIsTracking true a).

(** [stopTracking()], called when [new Date()] is [now]; [clock] and [io]
    are those of the INSERT, whose promise nobody awaits. *)
Definition stopTracking (now clock : Z) (io : SqliteResult) (a : t) : t :=
  if negb (isTracking a) then a
  else
    let a1 := withIsTracking false a in
    let a2 := match trackingInterval a1 with
              | Some handle => clearInterval handle a1
              | None => a1
              end in
    if Js.truthy (currentApp a2) && Js.truthyDate (currentAppStartTime a2) then
      let usageTime := (now - Js.toNumber (currentAppStartTime a2)) / 1000 in
      if 0 <? usageTime then
        match Database.logUsage clock io (str (currentApp a2)) usageTime (db a2) with
        | Resolved (d, _) => withDb d a2
        | Rejected _ => a2
        end
      else a2
    else a2.

(** *** Runs *)

(** What happens to a tracker: the two calls of the control surface, and
    the calls of [trackCurrentApp]. *)
Inductive Event : Type :=
| Start
| Stop (now clock : Z) (io : SqliteResult)
| Track (s : Sample).

Definition step (a : t) (e : Event) : t :=
  match e with
  | Start => startTracking a
  | Stop now clock io => stopTracking now clock io a
  | Track s => trackCurrentApp s a
  end.

Definition run (events : list Event) (a : t) : t :=
  fold_left step events a.

(** A sample that sees [appName] at [now], its INSERT (if any) accepted at
    the same instant. *)
Definition sees (appName : string) (now : Z) : Sample :=
  mkSample (Resolved appName) now now SQLITE_OK.

(** A sample that does not see another application than [appName]: it
    sees [appName], or its probe fails. *)
Definition observes (appName : string) (s : Sample) : Prop :=
  match probe s with
  | Resolved seen => seen = appName
  | Rejected _ => True
  end.

(** The attributions of a database, oldest first: [(app_name,
    duration_seconds)] of each row. *)
Definition attributions (d : Database.t) : list (string * Z) :=
  map (fun r => (Database.app_name r, Database.duration_seconds r))
      (Database.usage_logs d).

(** The attributions written since the database was [before]. *)
Definition written (before : Database.t) (a : t) : list (string * Z) :=
  skipn (List.length (Database.usage_logs before)) (attributions (db a)).

End AppUsageTracker.

(** ** The formulas of the specification *)

Module Spec.

(** The sum of a sequence. *)
Definition sum (l : list Z) : Z := fold_right Z.add 0 l.

(** [round(100 * totalSeconds / grandTotal)] in exact arithmetic, a tie
    going up as with [Math.round], and 0 when [grandTotal] is 0. *)
Definition percentage (totalSeconds grandTotal : Z) : Z :=
  if grandTotal =? 0 then 0
  else (2 * (100 * totalSeconds) + grandTotal) / (2 * grandTotal).

Definition isDigit (c : ascii) : bool :=
  (48 <=? nat_of_ascii c)%nat && (nat_of_ascii c <=? 57)%nat.

Fixpoint allDigits (s : string) : bool :=
  match s with
  | EmptyString => true
  | String c rest => isDigit c && allDigits rest
  end.

(** [width] decimal digits. *)
Definition digits (width : nat) (s : string) : bool :=
  Nat.eqb (String.length s) width && allDigits s.

(** The format YYYY-MM-DD. *)
Definition isCalendarDate (s : string) : bool :=
  Nat.eqb (String.length s) 10 &&
  digits 4 (substring 0 4 s) && String.eqb (substring 4 1 s) "-" &&
  digits 2 (substring 5 2 s) && String.eqb (substring 7 1 s) "-" &&
  digits 2 (substring 8 2 s).

End Spec.

(** ** database.js: getDailyStats *)

Module DailyStats.

(** SQLite's [date('now', '-N days')] for a non-negative integer [N]: the
    calendar date in UTC of the instant [N] days before the clock.  SQLite
    defines the result from year 0 to year 9999; outside it is taken as
    NULL. *)
Definition sqliteDate (clock : Z) (days : N) : option string :=
  let instant := clock - Z.of_N days * 86400000 in
  if (-62167219200000 <=? instant) && (instant <? 253402300800000)
  then Some (Js.toISODate instant)
  else None.

(** [WHERE date >= ?], a comparison with NULL selecting no row. *)
Definition selects (since : option string) (r : Database.UsageLog) : bool :=
  match since with
  | Some param => String.leb param (Database.date r)
  | None => false
  end.

(** A row of the result set of
    [SELECT date, SUM(duration_seconds) as total_seconds FROM usage_logs
     WHERE date >= date('now', '-N days') GROUP BY date ORDER BY date DESC]. *)
Record Row : Type := mkRow {
  row_date : string;
  total_seconds : Z
}.

(** GROUP BY date *)
Fixpoint addToDate (day : string) (seconds : Z) (groups : list Row) : list Row :=
  match groups with
  | [] => [mkRow day seconds]
  | g :: rest =>
      if String.eqb (row_date g) day
      then mkRow day (total_seconds g + seconds) :: rest
      else g :: addToDate day seconds rest
  end.

Definition groupByDate (rows : list Database.UsageLog) : list Row :=
  fold_left (fun groups r => addToDate (Database.date r) (Database.duration_seconds r) groups)
            rows [].

(** ORDER BY date DESC, TEXT compared byte by byte. *)
Fixpoint insertDesc (r : Row) (sorted : list Row) : list Row :=
  match sorted with
  | [] => [r]
  | x :: rest =>
      if String.ltb (row_date r) (row_date x)
      then x :: insertDesc r rest
      else r :: x :: rest
  end.

Definition orderByDateDesc (rows : list Row) : list Row :=
  fold_right insertDesc [] rows.

(** One element of the array [getDailyStats] resolves to. *)
Record t : Type := mk {
  date : string;
  totalSeconds : Z;
  totalTime : string
}.

Definition formatRow (row : Row) : t :=
  mk (row_date row) (total_seconds row) (Database.formatDuration (total_seconds row)).

(** [getDailyStats(days)], for a non-negative integer [days], called when
    the clock shows [clock] and SQLite answers [io]. *)
Definition getDailyStats (clock : Z) (io : SqliteResult) (days : N)
    (db : Database.t) : Promise (list t) :=
  match io with
  | SQLITE_ERROR err => Rejected err
  | SQLITE_OK =>
      let rows :=
        orderByDateDesc
          (groupByDate (filter (selects (sqliteDate clock days)) (Database.usage_logs db))) in
      Resolved (map formatRow rows)
  end.

End DailyStats.

(** ** database.js: a store in use *)

Module Store.

(** The calls that write to the store. *)
Inductive Op : Type :=
| LogUsage (clock : Z) (io : SqliteResult) (appName : string) (durationSeconds : Z)
| ClearAllData (io : SqliteResult).

(** The database after a call; a rejected call leaves it as it was. *)
Definition apply (db : Database.t) (op : Op) : Database.t :=
  match op with
  | LogUsage clock io appName durationSeconds =>
      match Database.logUsage clock io appName durationSeconds db with
      | Resolved (db', _) => db'
      | Rejected _ => db
      end
  | ClearAllData io =>
      match Database.clearAllData io db with
      | Resolved db' => db'
      | Rejected _ => db
      end
  end.

(** The values of [lastID] that the calls of [logUsage] resolve to, in the
    order of the calls. *)
Fixpoint lastIDs (ops : list Op) (db : Database.t) : list Z :=
  match ops with
  | [] => []
  | op :: rest =>
      match op with
      | LogUsage clock io appName durationSeconds =>
          match Database.logUsage clock io appName durationSeconds db with
          | Resolved (_, lastID) => lastID :: lastIDs rest (apply db op)
          | Rejected _ => lastIDs rest (apply db op)
          end
      | ClearAllData _ => lastIDs rest (apply db op)
      end
  end.

End Store.

(** ** main.js: the control surface and the application events *)

Module Main.

Import AppUsageTracker.

(** What a handler returns to the renderer. *)
Inductive Value : Type :=
| Stats (stats : Database.UsageStats)
| Status (success : bool) (message : string)
| Boolean (b : bool)
| Undefined.

(** What reaches the tracker: an [invoke] on one of the five channels of
    [setupIPC], a call of [trackCurrentApp] (the initial one or one of the
    interval), [createWindow], and the two application events that stop
    the tracking. *)
Inductive Request : Type :=
| GetUsageStats (period : option string) (clock : Z) (io : SqliteResult)
| StartTracking
| StopTracking (now clock : Z) (io : SqliteResult)
| IsTracking
| ClearData (io : SqliteResult)
| Poll (s : Sample)
| CreateWindow
| WindowAllClosed (now clock : Z) (io : SqliteResult)
| BeforeQuit (now clock : Z) (io : SqliteResult).

(** [createWindow()] *)
Definition createWindow (a : AppUsageTracker.t) : AppUsageTracker.t :=
  AppUsageTracker.mk (db a) (currentApp a) (currentAppStartTime a) (trackingInterval a)
    (isTracking a) true (intervals a) (timerCount a) (usageUpdated a).

(** The handler of a request: what it returns, and the tracker after it. *)
Definition handle (r : Request) (a : AppUsageTracker.t)
    : Promise Value * AppUsageTracker.t :=
  match r with
  | GetUsageStats period clock io =>
      (* async (event, period = 'today') => await this.db.getUsageStats(period) *)
      let period := match period with Some p => p | None => "today" end in
      match Database.getUsageStats clock io period (db a) with
      | Resolved stats => (Resolved (Stats stats), a)
      | Rejected err => (Rejected err, a)
      end
  | StartTracking =>
      (Resolved (Status true "Tracking started"), startTracking a)
  | StopTracking now clock io =>
      (Resolved (Status true "Tracking stopped"), stopTracking now clock io a)
  | IsTracking =>
      (Resolved (Boolean (isTracking a)), a)
  | ClearData io =>
      match Database.clearAllData io (db a) with
      | Resolved d => (Resolved (Status true "All data cleared"),
                       sendUsageUpdate (withDb d a))
      | Rejected err => (Rejected err, a)
      end
  | Poll s => (Resolved Undefined, trackCurrentApp s a)
  | CreateWindow => (Resolved Undefined, createWindow a)
  | WindowAllClosed now clock io => (Resolved Undefined, stopTracking now clock io a)
  | BeforeQuit now clock io => (Resolved Undefined, stopTracking now clock io a)
  end.

(** The tracker after a sequence of requests. *)
Definition serve (requests : list Request) (a : AppUsageTracker.t) : AppUsageTracker.t :=
  fold_left (fun a r => snd (handle r a)) requests a.

(** The seconds attributed in a database, all rows together. *)
Definition attributed (d : Database.t) : Z :=
  Spec.sum (map Database.duration_seconds (Database.usage_logs d)).

(** The session hangs together: the current application and its start time
    are set together, the interval handle is held exactly while tracking,
    and the only interval that is set is the one whose handle is held. *)
Definition consistent (a : AppUsageTracker.t) : Prop :=
  (currentApp a = None <-> currentAppStartTime a = None) /\
  (isTracking a = true <-> trackingInterval a <> None) /\
  intervals a = match trackingInterval a with
                | Some handle => [handle]
                | None => []
                end.

(** Every row is an attribution worth keeping: a non-empty name and one
    second or more. *)
Definition sound (d : Database.t) : Prop :=
  Forall (fun r => Database.app_name r <> "" /\ 0 < Database.duration_seconds r)
         (Database.usage_logs d).

End Main.

(** ** What the statistics are sums of *)

Module Tally.

(** The rows of one application, of one date. *)
Definition rowsOf (appName : string) (rows : list Database.UsageLog) : list Database.UsageLog :=
  filter (fun r => String.eqb (Database.app_name r) appName) rows.

Definition rowsOn (day : string) (rows : list Database.UsageLog) : list Database.UsageLog :=
  filter (fun r => String.eqb (Database.date r) day) rows.

(** The seconds of a list of rows. *)
Definition seconds (rows : list Database.UsageLog) : Z :=
  Spec.sum (map Database.duration_seconds rows).

(** The value of a digit, and of a string of digits. *)
Definition digitOf (c : ascii) : Z := Z.of_nat (nat_of_ascii c) - 48.

Fixpoint valueOf (s : string) : Z :=
  match s with
  | EmptyString => 0
  | String c rest => digitOf c * 10 ^ Z.of_nat (String.length rest) + valueOf rest
  end.

End Tally.

(** * Properties *)

Import AppUsageTracker.

(** ** Strings and truthiness *)

Lemma truthy_Some (s : string) : s <> "" -> Js.truthy (Some s) = true.
Proof. destruct s as [|c s]; [congruence | reflexivity]. Qed.

Lemma strictNe_same (s : string) : Js.strictNe (Some s) s = false.
Proof. unfold Js.strictNe. now rewrite String.eqb_refl. Qed.

Lemma strictNe_other (s u : string) : s <> u -> Js.strictNe (Some s) u = true.
Proof.
  intros Hne. unfold Js.strictNe.
  destruct (String.eqb_spec s u); [contradiction | reflexivity].
Qed.

(** ** Dates *)

Lemma MonthStart_from_march (leap m : Z) :
  3 <= m <= 13 -> Js.MonthStart leap m = 59 + leap + (153 * (m - 3) + 2) / 5.
Proof.
  intros Hm.
  assert (Hc : m = 3 \/ m = 4 \/ m = 5 \/ m = 6 \/ m = 7 \/ m = 8 \/ m = 9 \/
               m = 10 \/ m = 11 \/ m = 12 \/ m = 13) by lia.
  repeat (destruct Hc as [->|Hc]); try subst m; unfold Js.MonthStart;
    cbn [Z.eqb Pos.eqb]; Z.to_euclidean_division_equations; lia.
Qed.

Lemma DayFromYear_succ (y : Z) :
  Js.DayFromYear (y + 1) = Js.DayFromYear y + Js.DaysInYear y.
Proof.
  unfold Js.DayFromYear, Js.DaysInYear.
  repeat match goal with |- context [?a =? ?b] => destruct (Z.eqb_spec a b) end;
    cbn [negb]; Z.to_euclidean_division_equations; lia.
Qed.

Lemma DaysInYear_leap (y : Z) : Js.DaysInYear y = 365 + Js.InLeapYear y.
Proof.
  unfold Js.InLeapYear.
  destruct (Z.eqb_spec (Js.DaysInYear y) 366) as [E|E]; [lia |].
  revert E. unfold Js.DaysInYear.
  destruct (y mod 4 =? 0), (y mod 100 =? 0), (y mod 400 =? 0); cbn [negb]; lia.
Qed.

Lemma InLeapYear_bit (y : Z) : 0 <= Js.InLeapYear y <= 1.
Proof. unfold Js.InLeapYear. destruct (Js.DaysInYear y =? 366); lia. Qed.

(** [civilFromDays] gives the year, the month and the day of the month that
    ECMAScript defines for a day number: the year whose 1 January is the
    last one not after the day, the month in whose span the day within the
    year falls (in a leap year or not), and the day counted from 1 in that
    month. *)
Lemma civilFromDays_ecma (day : Z) :
  let '(y, m, d) := Js.civilFromDays day in
  Js.DayFromYear y <= day < Js.DayFromYear (y + 1) /\
  1 <= m <= 12 /\
  Js.MonthStart (Js.InLeapYear y) m <= day - Js.DayFromYear y
    < Js.MonthStart (Js.InLeapYear y) (m + 1) /\
  d = day - Js.DayFromYear y - Js.MonthStart (Js.InLeapYear y) m + 1.
Proof.
  unfold Js.civilFromDays.
  set (z := day + 719468).
  set (era := z / 146097).
  set (doe := z - era * 146097).
  set (yoe := (doe - doe / 1460 + doe / 36524 - doe / 146096) / 365).
  set (doy := doe - (365 * yoe + yoe / 4 - yoe / 100)).
  set (mp := (5 * doy + 2) / 153).
  cbv zeta.
  assert (Hdoe : 0 <= doe < 146097)
    by (subst doe era; Z.to_euclidean_division_equations; lia).
  assert (Hyoe : 0 <= yoe <= 399 /\ 0 <= doy <= 365 /\
                 (doy = 365 -> yoe mod 4 = 3 /\ (yoe mod 100 <> 99 \/ yoe = 399))).
  { subst doy yoe. clearbody doe. Z.to_euclidean_division_equations; lia. }
  assert (Hday : day = era * 146097 + 365 * yoe + yoe / 4 - yoe / 100 + doy - 719468).
  { clearbody yoe era. subst doy doe z. lia. }
  clearbody doy yoe era. clear z doe Hdoe.
  (* The year that starts on 1 March. *)
  set (Y := yoe + era * 400).
  assert (HY : day = 365 * Y + Y / 4 - Y / 100 + Y / 400 + doy - 719468).
  { subst Y. Z.to_euclidean_division_equations; lia. }
  assert (Hleap : doy = 365 ->
            (Y + 1) mod 4 = 0 /\ ((Y + 1) mod 100 <> 0 \/ (Y + 1) mod 400 = 0)).
  { subst Y. Z.to_euclidean_division_equations; lia. }
  clearbody Y. clear Hday.
  assert (Hmp : 0 <= mp <= 11 /\ (153 * mp + 2) / 5 <= doy /\
                (mp < 11 -> doy < (153 * (mp + 1) + 2) / 5)).
  { subst mp. Z.to_euclidean_division_equations; lia. }
  clearbody mp.
  assert (Hmar : 365 * Y + Y / 4 - Y / 100 + Y / 400 - 719468
                 = Js.DayFromYear (Y + 1) - 306).
  { unfold Js.DayFromYear. Z.to_euclidean_division_equations; lia. }
  assert (HleapY : doy = 365 -> Js.InLeapYear (Y + 1) = 1).
  { intros H365. destruct (Hleap H365) as [H4 H100]. unfold Js.InLeapYear, Js.DaysInYear.
    rewrite H4. cbn.
    destruct (Z.eqb_spec ((Y + 1) mod 100) 0) as [E|E]; cbn; [| reflexivity].
    destruct H100 as [H100|H100]; [contradiction | rewrite H100; reflexivity]. }
  pose proof (DayFromYear_succ Y) as HjY. rewrite DaysInYear_leap in HjY.
  pose proof (DayFromYear_succ (Y + 1)) as HjY1. rewrite DaysInYear_leap in HjY1.
  pose proof (InLeapYear_bit Y) as HbY.
  pose proof (InLeapYear_bit (Y + 1)) as HbY1.
  destruct Hmp as (Hmp & Hlo & Hhi). clear Hleap.
  destruct (Z.ltb_spec mp 10) as [Hlt|Hge].
  - replace (mp + 3 <=? 2) with false by (symmetry; apply Z.leb_gt; lia).
    rewrite Z.add_0_r.
    rewrite !MonthStart_from_march by lia.
    replace (mp + 3 - 3) with mp by lia.
    replace (mp + 3 + 1 - 3) with (mp + 1) by lia.
    assert (Hhi' : doy < (153 * (mp + 1) + 2) / 5) by (apply Hhi; lia).
    clear Hhi. Z.to_euclidean_division_equations; lia.
  - replace (mp - 9 <=? 2) with true by (symmetry; apply Z.leb_le; lia).
    assert (Hc : mp = 10 \/ mp = 11) by lia.
    destruct Hc as [->| ->]; cbn in Hlo, Hhi;
      change (10 - 9) with 1; change (11 - 9) with 2;
      change (1 + 1) with 2; change (2 + 1) with 3;
      rewrite ?(MonthStart_from_march _ 3) by lia;
      change (Js.MonthStart (Js.InLeapYear (Y + 1)) 1) with 0;
      change (Js.MonthStart (Js.InLeapYear (Y + 1)) 2) with 31;
      try specialize (Hhi ltac:(lia)); destruct Hyoe as (_ & Hdoy & _);
      Z.to_euclidean_division_equations; lia.
Qed.

Lemma DayFromYear_mono (y y' : Z) : y <= y' -> Js.DayFromYear y <= Js.DayFromYear y'.
Proof.
  intros Hle. unfold Js.DayFromYear. Z.to_euclidean_division_equations; lia.
Qed.

(** The years that [toISOString] writes with four digits. *)
Lemma civilFromDays_four_digit_year (clock : Z) :
  -62167219200000 <= clock < 253402300800000 ->
  let '(y, m, d) := Js.civilFromDays (Js.Day clock) in
  0 <= y <= 9999 /\ 1 <= m <= 12 /\ 1 <= d <= 31.
Proof.
  intros Hclock.
  pose proof (civilFromDays_ecma (Js.Day clock)) as Hecma.
  destruct (Js.civilFromDays (Js.Day clock)) as [[y m] d].
  destruct Hecma as (Hyear & Hm & Hspan & Hd).
  assert (Hday : Js.DayFromYear 0 <= Js.Day clock < Js.DayFromYear 10000).
  { unfold Js.Day, Js.msPerDay. change (Js.DayFromYear 0) with (-719528).
    change (Js.DayFromYear 10000) with 2932897.
    Z.to_euclidean_division_equations; lia. }
  split; [| split; [exact Hm |]].
  - split.
    + destruct (Z.le_gt_cases 0 y) as [H|H]; [exact H | exfalso].
      pose proof (DayFromYear_mono (y + 1) 0 ltac:(lia)). lia.
    + destruct (Z.le_gt_cases y 9999) as [H|H]; [exact H | exfalso].
      pose proof (DayFromYear_mono 10000 y ltac:(lia)). lia.
  - pose proof (InLeapYear_bit y) as Hbit.
    assert (Hc : m = 1 \/ m = 2 \/ 3 <= m <= 12) by lia.
    destruct Hc as [->|[->|Hc]].
    + change (Js.MonthStart (Js.InLeapYear y) 1) with 0 in *.
      change (Js.MonthStart (Js.InLeapYear y) (1 + 1)) with 31 in *. lia.
    + change (Js.MonthStart (Js.InLeapYear y) 2) with 31 in *.
      change (2 + 1) with 3 in *.
      rewrite (MonthStart_from_march _ 3) in Hspan by lia.
      change ((153 * (3 - 3) + 2) / 5) with 0 in Hspan. lia.
    + rewrite !MonthStart_from_march in * by lia.
      Z.to_euclidean_division_equations; lia.
Qed.

(** Every number below 10000 pads to four digits, and every number below
    100 to two: by enumeration. *)
Lemma padStart_digits_upto :
  forallb (fun n => Spec.digits 4 (Js.padStart 4 (Z.of_nat n)) &&
                    (if (n <? 100)%nat then Spec.digits 2 (Js.padStart 2 (Z.of_nat n))
                     else true))
          (seq 0 (Z.to_nat 10000)) = true.
Proof. vm_compute. reflexivity. Qed.

Lemma padStart_four_digits (n : Z) :
  0 <= n <= 9999 -> Spec.digits 4 (Js.padStart 4 n) = true.
Proof.
  intros Hn.
  assert (Hin : In (Z.to_nat n) (seq 0 (Z.to_nat 10000))) by (apply in_seq; lia).
  pose proof (proj1 (forallb_forall _ _) padStart_digits_upto _ Hin) as H.
  cbv beta in H. rewrite Z2Nat.id in H by lia.
  apply andb_prop in H. apply H.
Qed.

Lemma padStart_two_digits (n : Z) :
  0 <= n <= 99 -> Spec.digits 2 (Js.padStart 2 n) = true.
Proof.
  intros Hn.
  assert (Hin : In (Z.to_nat n) (seq 0 (Z.to_nat 10000))) by (apply in_seq; lia).
  pose proof (proj1 (forallb_forall _ _) padStart_digits_upto _ Hin) as H.
  cbv beta in H. rewrite Z2Nat.id in H by lia.
  assert (Hlt : (Z.to_nat n <? 100)%nat = true) by (apply Nat.ltb_lt; lia).
  rewrite Hlt in H. apply andb_prop in H. apply H.
Qed.

Lemma isCalendarDate_parts (year month day : string) :
  Spec.digits 4 year = true -> Spec.digits 2 month = true -> Spec.digits 2 day = true ->
  Spec.isCalendarDate (year ++ "-" ++ month ++ "-" ++ day) = true.
Proof.
  unfold Spec.digits. intros Hy Hm Hd.
  apply andb_prop in Hy, Hm, Hd. destruct Hy as [Ly Hy], Hm as [Lm Hm], Hd as [Ld Hd].
  apply Nat.eqb_eq in Ly, Lm, Ld.
  destruct year as [|y1 [|y2 [|y3 [|y4 [|? ?]]]]]; try discriminate Ly.
  destruct month as [|m1 [|m2 [|? ?]]]; try discriminate Lm.
  destruct day as [|d1 [|d2 [|? ?]]]; try discriminate Ld.
  unfold Spec.isCalendarDate, Spec.digits. cbn [append String.length substring Nat.eqb].
  rewrite Hy, Hm, Hd. reflexivity.
Qed.

(** From year 0 to year 9999, [toISODate] has the format YYYY-MM-DD. *)
Lemma toISODate_format (clock : Z) :
  -62167219200000 <= clock < 253402300800000 ->
  Spec.isCalendarDate (Js.toISODate clock) = true.
Proof.
  intros Hclock. pose proof (civilFromDays_four_digit_year clock Hclock) as H.
  unfold Js.toISODate. destruct (Js.civilFromDays (Js.Day clock)) as [[y m] d].
  destruct H as (Hy & Hm & Hd).
  unfold Js.isoYear.
  replace ((0 <=? y) && (y <=? 9999)) with true
    by (symmetry; apply andb_true_intro; split; apply Z.leb_le; lia).
  apply isCalendarDate_parts.
  - apply padStart_four_digits. lia.
  - apply padStart_two_digits. lia.
  - apply padStart_two_digits. lia.
Qed.

(** The epoch, a leap day, the last millisecond of a year, a day before the
    epoch, and the first year written with six digits. *)
Example toISODate_examples :
  Js.toISODate 0 = "1970-01-01" /\
  Js.toISODate 951782400000 = "2000-02-29" /\
  Js.toISODate 1735689599999 = "2024-12-31" /\
  Js.toISODate (-1) = "1969-12-31" /\
  Js.toISODate 253402300800000 = "+010000-01-01".
Proof. vm_compute. repeat split. Qed.

(** ** Numbers *)

(** [Math.round] on doubles: ties go up, also below zero. *)
Example Math_round_examples :
  Js.Math_round 0.5%float = 1 /\
  Js.Math_round 2.5%float = 3 /\
  Js.Math_round 1.25%float = 1 /\
  Js.Math_round (-1.5)%float = -1 /\
  Js.Math_round (-1.75)%float = -2 /\
  Js.Math_round 0x1.cbfffffffffffp+5%float = 57 /\
  Js.Math_round (Js.number 100) = 100.
Proof. vm_compute. repeat split. Qed.

(** The percentage of 23 seconds in 40: the product on doubles,
    57.49999999999999, falls just below the tie. *)
Example percentageOf_23_40 :
  PrimFloat.mul (PrimFloat.div (Js.number 23) (Js.number 40)) (Js.number 100)
  = 0x1.cbfffffffffffp+5%float /\
  Database.percentageOf 23 40 = 57 /\ Spec.percentage 23 40 = 58 /\
  Database.percentageOf 1 2 = 50 /\ Database.percentageOf 1 3 = 33 /\
  Database.percentageOf 2 3 = 67 /\ Database.percentageOf 5 0 = 0.
Proof. vm_compute. repeat split. Qed.

(** ** formatDuration *)

(** C8.  For a non-negative integer [seconds], with [h], [m] and [s] its
    hours, minutes of the hour and seconds of the minute, [formatDuration]
    returns ["{h}h {m}m {s}s"] when [h > 0], ["{m}m {s}s"] when [h = 0] and
    [m > 0], and ["{s}s"] otherwise. *)
Theorem formatDuration_cases (seconds : Z) (Hnat : 0 <= seconds) :
  let h := seconds / 3600 in
  let m := (seconds mod 3600) / 60 in
  let s := seconds mod 60 in
  seconds = 3600 * h + 60 * m + s /\ 0 <= h /\ 0 <= m < 60 /\ 0 <= s < 60 /\
  Database.formatDuration seconds =
    if 0 <? h then
      Js.toString h ++ "h " ++ Js.toString m ++ "m " ++ Js.toString s ++ "s"
    else if 0 <? m then Js.toString m ++ "m " ++ Js.toString s ++ "s"
    else Js.toString s ++ "s".
Proof.
  intros h m s. subst h m s.
  repeat split; try (Z.to_euclidean_division_equations; lia).
  unfold Database.formatDuration.
  rewrite !Z.rem_mod_nonneg by lia. reflexivity.
Qed.

(** The three values the specification lists, each through
    [formatDuration_cases]. *)
Lemma formatDuration_examples :
  Database.formatDuration 0 = "0s" /\
  Database.formatDuration 65 = "1m 5s" /\
  Database.formatDuration 3661 = "1h 1m 1s".
Proof.
  pose proof (formatDuration_cases 0 ltac:(lia)) as H0.
  pose proof (formatDuration_cases 65 ltac:(lia)) as H65.
  pose proof (formatDuration_cases 3661 ltac:(lia)) as H3661.
  cbv zeta in H0, H65, H3661.
  destruct H0 as (_ & _ & _ & _ & ->).
  destruct H65 as (_ & _ & _ & _ & ->).
  destruct H3661 as (_ & _ & _ & _ & ->).
  repeat split; reflexivity.
Defined.

(** ** The tracking session *)

Lemma skipn_map_app {A B : Type} (f : A -> B) (l l' : list A) :
  skipn (List.length l) (map f (l ++ l')) = map f l'.
Proof.
  induction l as [|x l IH]; simpl; [reflexivity | exact IH].
Qed.

Lemma written_nothing (a a' : t) : db a' = db a -> written (db a) a' = [].
Proof.
  intros H. unfold written, attributions. rewrite H.
  rewrite <- (length_map (fun r => (Database.app_name r, Database.duration_seconds r))).
  apply skipn_all.
Qed.

Lemma floor_seconds_pos (elapsed : Z) :
  (0 <? elapsed / 1000) = true <-> 1000 <= elapsed.
Proof. rewrite Z.ltb_lt. split; intros; Z.to_euclidean_division_equations; lia. Qed.

(** The first sample of a session: nothing to attribute yet. *)
Lemma trackCurrentApp_first (a : t) (appName : string) (now clock : Z) (io : SqliteResult) :
  currentApp a = None ->
  trackCurrentApp (mkSample (Resolved appName) now clock io) a
  = withCurrent (Some appName) (Some now) a.
Proof.
  intros Hcur. unfold trackCurrentApp. simpl. rewrite Hcur. simpl.
  now rewrite Hcur.
Qed.

(** A sample that sees the current application changes nothing. *)
Lemma trackCurrentApp_same (a : t) (appName : string) (now clock : Z) (io : SqliteResult) :
  currentApp a = Some appName ->
  trackCurrentApp (mkSample (Resolved appName) now clock io) a = a.
Proof.
  intros Hcur. unfold trackCurrentApp. simpl.
  rewrite Hcur, strictNe_same, andb_false_r. simpl.
  now rewrite Hcur, strictNe_same.
Qed.

(** A failed probe changes nothing. *)
Lemma trackCurrentApp_probe_failed (a : t) (err : string) (now clock : Z) (io : SqliteResult) :
  trackCurrentApp (mkSample (Rejected err) now clock io) a = a.
Proof. reflexivity. Qed.

(** A switch seen a whole second or more after the outgoing application
    came to the front, the INSERT accepted. *)
Lemma trackCurrentApp_switch (a : t) (prev appName : string) (start now clock : Z) :
  currentApp a = Some prev -> prev <> "" -> prev <> appName ->
  currentAppStartTime a = Some start -> 1000 <= now - start ->
  trackCurrentApp (mkSample (Resolved appName) now clock SQLITE_OK) a
  = withCurrent (Some appName) (Some now)
      (sendUsageUpdate
         (withDb (Database.mk
                    (Database.usage_logs (db a) ++
                     [Database.mkUsageLog (Database.sqlite_sequence (db a) + 1) prev
                        ((now - start) / 1000) (clock / 1000) (Js.toISODate clock)])
                    (Database.sqlite_sequence (db a) + 1)) a)).
Proof.
  intros Hcur Hne Hsw Hstart Hsec. unfold trackCurrentApp. simpl.
  rewrite Hcur, Hstart, (truthy_Some _ Hne), (strictNe_other _ _ Hsw). simpl.
  rewrite (proj2 (floor_seconds_pos _) Hsec).
  assert (Hcur' : forall x, currentApp (sendUsageUpdate (withDb x a)) = Some prev).
  { intros x. unfold sendUsageUpdate. destruct (mainWindow (withDb x a)); exact Hcur. }
  now rewrite Hcur', (strictNe_other _ _ Hsw).
Qed.

(** A switch seen less than a whole second after the outgoing application
    came to the front: nothing is written, the bookkeeping proceeds. *)
Lemma trackCurrentApp_bounce (a : t) (prev appName : string) (start now clock : Z)
    (io : SqliteResult) :
  currentApp a = Some prev -> prev <> appName ->
  currentAppStartTime a = Some start -> now - start < 1000 ->
  trackCurrentApp (mkSample (Resolved appName) now clock io) a
  = withCurrent (Some appName) (Some now) a.
Proof.
  intros Hcur Hsw Hstart Hsec. unfold trackCurrentApp. simpl.
  rewrite Hcur, Hstart, (strictNe_other _ _ Hsw). simpl.
  assert (Hz : (0 <? (now - start) / 1000) = false).
  { apply Z.ltb_ge. Z.to_euclidean_division_equations; lia. }
  rewrite Hz, andb_true_r.
  destruct (match prev with "" => false | String _ _ => true end);
    rewrite Hcur; cbn [Js.strictNe]; now rewrite (proj2 (String.eqb_neq _ _) Hsw).
Qed.

(** C9.  [startTracking] does nothing to a session that is tracking; hence
    a second call in a row changes nothing: the session is tracking after
    the first, and of a new tracker exactly one interval is set. *)
Theorem startTracking_idempotent (a : t) :
  (isTracking a = true -> startTracking a = a) /\
  isTracking (startTracking a) = true /\
  startTracking (startTracking a) = startTracking a /\
  (forall d, intervals (startTracking (startTracking (create d))) = [0%nat]).
Proof.
  assert (Hon : isTracking (startTracking a) = true).
  { unfold startTracking. destruct (isTracking a) eqn:E; [exact E | reflexivity]. }
  repeat split.
  - intros H. unfold startTracking. now rewrite H.
  - exact Hon.
  - unfold startTracking at 1. now rewrite Hon.
Qed.

(** A session that has been tracking since its current application and its
    start time were set: the second [startTracking] leaves all of it. *)
Lemma startTracking_idempotent_witness :
  let a := trackCurrentApp (sees "Safari" 1700000000000)
                           (startTracking (create Database.empty)) in
  isTracking a = true /\ startTracking a = a /\
  currentApp (startTracking a) = Some "Safari" /\
  currentAppStartTime (startTracking a) = Some 1700000000000 /\
  intervals (startTracking a) = [0%nat].
Proof.
  intros a.
  assert (H : isTracking a = true) by reflexivity.
  split; [exact H |].
  rewrite (proj1 (startTracking_idempotent a) H).
  repeat split; reflexivity.
Defined.

Lemma trackCurrentApp_no_switch (appName : string) (s : Sample) (a : t) :
  currentApp a = None \/ currentApp a = Some appName ->
  observes appName s ->
  db (trackCurrentApp s a) = db a /\
  (currentApp (trackCurrentApp s a) = None \/
   currentApp (trackCurrentApp s a) = Some appName).
Proof.
  intros Hcur Hobs. destruct s as [[seen|err] now clock io]; unfold observes in Hobs;
    simpl in Hobs.
  - subst seen. destruct Hcur as [Hcur|Hcur].
    + rewrite (trackCurrentApp_first _ _ _ _ _ Hcur). split; [reflexivity | now right].
    + rewrite (trackCurrentApp_same _ _ _ _ _ Hcur). split; [reflexivity | now right].
  - rewrite trackCurrentApp_probe_failed. split; [reflexivity | exact Hcur].
Qed.

(** C5.  Samples that all see the same application, taken by a session
    whose current application is unset or is that application, write no
    attribution: the table is as it was. *)
Theorem no_switch_no_write (appName : string) (samples : list Sample) (a : t) :
  currentApp a = None \/ currentApp a = Some appName ->
  Forall (observes appName) samples ->
  Database.usage_logs (db (run (map Track samples) a)) = Database.usage_logs (db a) /\
  written (db a) (run (map Track samples) a) = [].
Proof.
  intros Hcur Hall.
  assert (Hdb : db (run (map Track samples) a) = db a).
  { revert a Hcur. induction Hall as [|s samples Hs _ IH]; intros a Hcur.
    - reflexivity.
    - destruct (trackCurrentApp_no_switch appName s a Hcur Hs) as [Hdb Hcur'].
      unfold run in *. simpl. rewrite (IH _ Hcur'). exact Hdb. }
  split; [now rewrite Hdb | now apply written_nothing].
Qed.

(** Four samples of one application, the third with a failed probe, from
    the start of a session. *)
Lemma no_switch_no_write_witness :
  written Database.empty
    (run (map Track [sees "Safari" 0; sees "Safari" 5000;
                     mkSample (Rejected "osascript") 10000 10000 SQLITE_OK;
                     sees "Safari" 15000])
         (startTracking (create Database.empty))) = [].
Proof.
  apply (no_switch_no_write "Safari" _ (startTracking (create Database.empty))).
  - left. reflexivity.
  - repeat constructor.
Defined.

(** C2.  [stopTracking] on a session that is tracking, whose current
    application [X] (a non-empty name) came to the front at [t0], called at
    [t1] with the INSERT accepted: when a whole second or more has elapsed
    it writes the one attribution [(X, floor ((t1 - t0) / 1000))]; when
    less has (so when [t1 = t0]) it writes nothing; either way the session
    is no longer tracking and its interval is cleared. *)
Theorem stopTracking_flushes (a : t) (X : string) (t0 t1 clock : Z) :
  isTracking a = true -> currentApp a = Some X -> X <> "" ->
  currentAppStartTime a = Some t0 ->
  let a' := stopTracking t1 clock SQLITE_OK a in
  (1000 <= t1 - t0 -> written (db a) a' = [(X, (t1 - t0) / 1000)]) /\
  (t1 - t0 < 1000 -> written (db a) a' = []) /\
  (t1 = t0 -> written (db a) a' = []) /\
  isTracking a' = false /\ trackingInterval a' = None /\
  (forall handle, trackingInterval a = Some handle -> ~ In handle (intervals a')).
Proof.
  intros Hon Hcur Hne Hstart.
  destruct a as [d ca st ti it mw iv tc uu]. simpl in Hon, Hcur, Hstart. subst it ca st.
  destruct X as [|c X]; [congruence | clear Hne].
  set (X' := String c X).
  assert (Hnone : t1 - t0 < 1000 ->
            written d (stopTracking t1 clock SQLITE_OK
                         (mk d (Some X') (Some t0) ti true mw iv tc uu)) = []).
  { intros Hlt. apply (written_nothing (mk d (Some X') (Some t0) ti true mw iv tc uu)).
    unfold stopTracking. simpl.
    assert (Hz : (0 <? (t1 - t0) / 1000) = false).
    { apply Z.ltb_ge. Z.to_euclidean_division_equations; lia. }
    destruct ti; simpl; rewrite Hz; reflexivity. }
  cbv zeta. simpl db. repeat split.
  - intros Hsec. unfold stopTracking. simpl.
    destruct ti; simpl; rewrite (proj2 (floor_seconds_pos _) Hsec);
      unfold written, attributions; simpl;
      now rewrite skipn_map_app.
  - exact Hnone.
  - intros ->. apply Hnone. lia.
  - unfold stopTracking. simpl.
    destruct ti; simpl; destruct (0 <? (t1 - t0) / 1000); reflexivity.
  - unfold stopTracking. simpl.
    destruct ti; simpl; destruct (0 <? (t1 - t0) / 1000); reflexivity.
  - intros handle Hti Hin. simpl in Hti. subst ti.
    unfold stopTracking in Hin. simpl in Hin.
    assert (Hin' : In handle (filter (fun h => negb (Nat.eqb h handle)) iv)).
    { destruct (0 <? (t1 - t0) / 1000); exact Hin. }
    apply filter_In in Hin'. destruct Hin' as [_ Hneq].
    now rewrite Nat.eqb_refl in Hneq.
Qed.

(** A session stopped seven seconds after Safari came to the front. *)
Lemma stopTracking_flushes_witness :
  let a := trackCurrentApp (sees "Safari" 1700000000000)
                           (startTracking (create Database.empty)) in
  let a' := stopTracking 1700000007400 1700000007400 SQLITE_OK a in
  written (db a) a' = [("Safari", 7)] /\
  isTracking a' = false /\ trackingInterval a' = None /\ intervals a' = [].
Proof.
  intros a a'.
  destruct (stopTracking_flushes a "Safari" 1700000000000 1700000007400 1700000007400)
    as (Hflush & _ & _ & Hoff & Hclear & _);
    [reflexivity | reflexivity | discriminate | reflexivity |].
  split; [apply Hflush; lia |].
  split; [exact Hoff |].
  split; [exact Hclear | reflexivity].
Defined.

(** C3.  What [stopTracking] does to the current application: nothing.  It
    sets [isTracking] and [trackingInterval] and never assigns [currentApp]
    or [currentAppStartTime], so the session that starts next carries both
    over.  On a run: Safari comes to the front at 0 and tracking stops at
    7000 (seven seconds are written as its "final usage"); tracking starts
    again and Mail is seen at 60000: Safari is attributed sixty seconds
    more, counted from 0 again. *)
Theorem stopTracking_keeps_current (a : t) (now clock : Z) (io : SqliteResult) :
  currentApp (stopTracking now clock io a) = currentApp a /\
  currentAppStartTime (stopTracking now clock io a) = currentAppStartTime a /\
  let stopped := run [Start; Track (sees "Safari" 0); Stop 7000 7000 SQLITE_OK]
                     (create Database.empty) in
  isTracking stopped = false /\
  currentApp stopped = Some "Safari" /\
  currentAppStartTime stopped = Some 0 /\
  written Database.empty stopped = [("Safari", 7)] /\
  written Database.empty (run [Start; Track (sees "Mail" 60000)] stopped)
  = [("Safari", 7); ("Safari", 60)].
Proof.
  assert (Hkeep : currentApp (stopTracking now clock io a) = currentApp a /\
                  currentAppStartTime (stopTracking now clock io a)
                  = currentAppStartTime a).
  { unfold stopTracking.
    destruct a as [d ca st ti it mw iv tc uu]. simpl.
    destruct it; simpl; [| split; reflexivity].
    destruct ti; simpl;
      destruct (Js.truthy ca && Js.truthyDate st); simpl;
      try destruct (0 <? (now - Js.toNumber st) / 1000); simpl;
      try destruct io; simpl; split; reflexivity. }
  destruct Hkeep as [Happ Hstart].
  split; [exact Happ |]. split; [exact Hstart |].
  cbv zeta. repeat split; reflexivity.
Qed.

Lemma db_sendUsageUpdate (a : t) : db (sendUsageUpdate a) = db a.
Proof. unfold sendUsageUpdate. destruct (mainWindow a); reflexivity. Qed.

(** What a detected switch writes, the INSERT accepted: the outgoing
    application with the whole seconds elapsed, when there is one or more. *)
Lemma trackCurrentApp_switch_writes (a : t) (prev appName : string) (start now clock : Z) :
  currentApp a = Some prev -> prev <> "" -> prev <> appName ->
  currentAppStartTime a = Some start ->
  let a' := trackCurrentApp (mkSample (Resolved appName) now clock SQLITE_OK) a in
  currentApp a' = Some appName /\ currentAppStartTime a' = Some now /\
  attributions (db a')
  = (attributions (db a)
     ++ (if 1000 <=? now - start then [(prev, (now - start) / 1000)] else []))%list.
Proof.
  intros Hcur Hne Hsw Hstart. cbv zeta.
  destruct (Z.leb_spec 1000 (now - start)) as [Hsec|Hsec].
  - rewrite (trackCurrentApp_switch a prev appName start now clock) by assumption.
    repeat split. cbn [withCurrent db]. rewrite db_sendUsageUpdate.
    unfold attributions. cbn [withDb db Database.usage_logs]. now rewrite map_app.
  - rewrite (trackCurrentApp_bounce a prev appName start now clock) by assumption.
    repeat split. cbn [withCurrent db]. now rewrite app_nil_r.
Qed.

(** C1, as amended.  Samples [A, A, B, B, C] at [t0 .. t4], taken by a
    session with no current application, the INSERTs accepted, [A] and [B]
    non-empty names: the attributions written are [(A, floor ((t2-t0)/1000))]
    when that is one second or more, then [(B, floor ((t4-t2)/1000))] when
    that is one second or more; an elapsed time that floors to 0 is not
    written. *)
Theorem two_switches_two_attributions
    (a : t) (A B C : string) (t0 t1 t2 t3 t4 c0 c1 c2 c3 c4 : Z) :
  currentApp a = None ->
  A <> "" -> B <> "" -> A <> B -> B <> C ->
  written (db a)
    (run [Track (mkSample (Resolved A) t0 c0 SQLITE_OK);
          Track (mkSample (Resolved A) t1 c1 SQLITE_OK);
          Track (mkSample (Resolved B) t2 c2 SQLITE_OK);
          Track (mkSample (Resolved B) t3 c3 SQLITE_OK);
          Track (mkSample (Resolved C) t4 c4 SQLITE_OK)] a)
  = ((if 1000 <=? t2 - t0 then [(A, (t2 - t0) / 1000)] else [])
     ++ (if 1000 <=? t4 - t2 then [(B, (t4 - t2) / 1000)] else []))%list.
Proof.
  intros Hcur HA HB HAB HBC.
  unfold run. cbn [fold_left step].
  rewrite (trackCurrentApp_first a A t0 c0) by exact Hcur.
  set (a1 := withCurrent (Some A) (Some t0) a).
  rewrite (trackCurrentApp_same a1 A t1 c1) by reflexivity.
  destruct (trackCurrentApp_switch_writes a1 A B t0 t2 c2) as (Hcur3 & Hstart3 & Hdb3);
    try (reflexivity || assumption).
  set (a3 := trackCurrentApp (mkSample (Resolved B) t2 c2 SQLITE_OK) a1) in *.
  rewrite (trackCurrentApp_same a3 B t3 c3) by exact Hcur3.
  destruct (trackCurrentApp_switch_writes a3 B C t2 t4 c4) as (_ & _ & Hdb5);
    try assumption.
  unfold written. rewrite Hdb5, Hdb3. unfold attributions at 1.
  change (db a1) with (db a). rewrite <- app_assoc.
  rewrite <- (length_map (fun r => (Database.app_name r, Database.duration_seconds r))).
  now rewrite skipn_app, skipn_all, Nat.sub_diag.
Qed.

(** Two switches, ten and twelve seconds apart, after a start. *)
Lemma two_switches_two_attributions_witness :
  written Database.empty
    (run [Track (sees "Safari" 1700000000000);
          Track (sees "Safari" 1700000005000);
          Track (sees "Mail" 1700000010000);
          Track (sees "Mail" 1700000015000);
          Track (sees "Xcode" 1700000022500)]
         (startTracking (create Database.empty)))
  = [("Safari", 10); ("Mail", 12)].
Proof.
  exact (two_switches_two_attributions (startTracking (create Database.empty))
           "Safari" "Mail" "Xcode"
           1700000000000 1700000005000 1700000010000 1700000015000 1700000022500
           1700000000000 1700000005000 1700000010000 1700000015000 1700000022500
           eq_refl
           ltac:(discriminate) ltac:(discriminate) ltac:(discriminate) ltac:(discriminate)).
Defined.

(** C1 fails as stated.  The five samples 200 ms apart (two switches, each
    seen 400 ms after the application came to the front): each elapsed time
    floors to 0 seconds, and nothing is written where two attributions are
    expected. *)
Lemma two_switches_within_a_second :
  let after :=
    run [Track (sees "Safari" 0); Track (sees "Safari" 200);
         Track (sees "Mail" 400); Track (sees "Mail" 600);
         Track (sees "Xcode" 800)]
        (startTracking (create Database.empty)) in
  written Database.empty after = [] /\
  written Database.empty after
  <> [("Safari", (400 - 0) / 1000); ("Mail", (800 - 400) / 1000)].
Proof.
  cbv zeta. split; [reflexivity | discriminate].
Qed.

(** C4, as amended.  A sample that detects a switch a whole second or more
    after the outgoing application (a non-empty name) came to the front, and
    whose INSERT SQLite rejects: the rejection ends the body of
    [trackCurrentApp] at the [await], and the session is left as it was,
    with the outgoing application and its start time still current. *)
Theorem failed_write_leaves_session
    (a : t) (prev appName err : string) (start now clock : Z) :
  currentApp a = Some prev -> prev <> "" -> prev <> appName ->
  currentAppStartTime a = Some start -> 1000 <= now - start ->
  trackCurrentApp (mkSample (Resolved appName) now clock (SQLITE_ERROR err)) a = a.
Proof.
  intros Hcur Hne Hsw Hstart Hsec. unfold trackCurrentApp. simpl.
  rewrite Hcur, Hstart, (truthy_Some _ Hne), (strictNe_other _ _ Hsw). simpl.
  now rewrite (proj2 (floor_seconds_pos _) Hsec).
Qed.

(** Safari in front since 0, Mail seen at 5000, the disk full. *)
Lemma failed_write_leaves_session_witness :
  let a := trackCurrentApp (sees "Safari" 0) (startTracking (create Database.empty)) in
  trackCurrentApp (mkSample (Resolved "Mail") 5000 5000 (SQLITE_ERROR "SQLITE_FULL")) a = a.
Proof.
  intros a.
  apply (failed_write_leaves_session a "Safari" "Mail" "SQLITE_FULL" 0 5000 5000);
    (reflexivity || discriminate || lia).
Defined.

(** C4 fails as stated.  Safari in front since 0, Mail seen at 5000: when
    the INSERT is accepted the current application becomes Mail, since
    5000; when it is rejected the current application stays Safari, since
    0. *)
Lemma failed_write_freezes_switch :
  let a := trackCurrentApp (sees "Safari" 0) (startTracking (create Database.empty)) in
  let ok := trackCurrentApp (mkSample (Resolved "Mail") 5000 5000 SQLITE_OK) a in
  let failed :=
    trackCurrentApp (mkSample (Resolved "Mail") 5000 5000 (SQLITE_ERROR "SQLITE_FULL")) a in
  currentApp ok = Some "Mail" /\ currentAppStartTime ok = Some 5000 /\
  currentApp failed = Some "Safari" /\ currentAppStartTime failed = Some 0 /\
  currentApp failed <> currentApp ok /\
  currentAppStartTime failed <> currentAppStartTime ok.
Proof.
  cbv zeta. repeat split; try reflexivity; discriminate.
Qed.

(** ** The usage store *)

(** C6, as amended.  A call of [logUsage] that SQLite accepts inserts
    exactly one row, after the rows there were: it holds the name and the
    duration given, and its date is the calendar date of the clock in UTC,
    the date of day [floor (clock / 86400000)] since the epoch, whatever
    the time zone of the tracker.  From year 0 to year 9999 the date has the
    format YYYY-MM-DD. *)
Theorem logUsage_inserts_utc_date
    (clock : Z) (appName : string) (durationSeconds : Z) (db : Database.t) :
  exists row,
    Database.logUsage clock SQLITE_OK appName durationSeconds db
    = Resolved (Database.mk (Database.usage_logs db ++ [row]) (Database.id row),
                Database.id row) /\
    Database.app_name row = appName /\
    Database.duration_seconds row = durationSeconds /\
    Database.date row = Js.toISODate clock /\
    (let '(y, m, d) := Js.civilFromDays (clock / 86400000) in
     Database.date row = Js.isoYear y ++ "-" ++ Js.padStart 2 m ++ "-" ++ Js.padStart 2 d /\
     Js.DayFromYear y <= clock / 86400000 < Js.DayFromYear (y + 1) /\
     1 <= m <= 12 /\
     d = clock / 86400000 - Js.DayFromYear y - Js.MonthStart (Js.InLeapYear y) m + 1) /\
    (-62167219200000 <= clock < 253402300800000 ->
     Spec.isCalendarDate (Database.date row) = true).
Proof.
  exists (Database.mkUsageLog (Database.sqlite_sequence db + 1) appName durationSeconds
            (clock / 1000) (Js.toISODate clock)).
  split; [reflexivity |].
  cbn [Database.app_name Database.duration_seconds Database.date Database.id].
  do 3 (split; [reflexivity |]).
  split.
  - pose proof (civilFromDays_ecma (clock / 86400000)) as Hecma.
    unfold Js.toISODate, Js.Day. change Js.msPerDay with 86400000.
    destruct (Js.civilFromDays (clock / 86400000)) as [[y m] d].
    destruct Hecma as (Hyear & Hm & _ & Hd).
    split; [reflexivity |]. split; [exact Hyear |]. split; [exact Hm | exact Hd].
  - apply toISODate_format.
Qed.

(** Eight o'clock in the evening of 31 December 2023 in New York. *)
Lemma logUsage_inserts_utc_date_witness :
  exists row,
    Database.logUsage 1704070800000 SQLITE_OK "Safari" 60 Database.empty
    = Resolved (Database.mk [row] 1, 1) /\
    Database.date row = "2024-01-01" /\
    Spec.isCalendarDate (Database.date row) = true.
Proof.
  destruct (logUsage_inserts_utc_date 1704070800000 "Safari" 60 Database.empty)
    as (row & Hlog & _ & _ & Hdate & _ & Hformat).
  exists row. split; [| split].
  - rewrite Hlog. vm_compute in Hlog. injection Hlog as <-. reflexivity.
  - rewrite Hdate. vm_compute. reflexivity.
  - apply Hformat. lia.
Defined.

(** C6 fails as stated.  At 2024-01-01T01:00:00Z a tracker in New York
    ([getTimezoneOffset()] is 300) is at eight in the evening of 31 December
    2023: the row is dated 2024-01-01, not the local date. *)
Lemma logUsage_date_is_not_local :
  let clock := 1704070800000 in
  Js.toLocalDate 300 clock = "2023-12-31" /\
  match Database.logUsage clock SQLITE_OK "Safari" 60 Database.empty with
  | Resolved (db, _) =>
      map Database.date (Database.usage_logs db) = ["2024-01-01"] /\
      map Database.date (Database.usage_logs db) <> [Js.toLocalDate 300 clock]
  | Rejected _ => False
  end.
Proof.
  cbv zeta. split; [vm_compute; reflexivity |].
  vm_compute. split; [reflexivity | discriminate].
Qed.

(** *** The query: ORDER BY and GROUP BY *)

Lemma insertDesc_In (r x : Database.Row) (l : list Database.Row) :
  In x (Database.insertDesc r l) <-> x = r \/ In x l.
Proof.
  induction l as [|y l IH]; simpl.
  - intuition.
  - destruct (Database.total_seconds r <? Database.total_seconds y); simpl;
      rewrite ?IH; intuition.
Qed.

Lemma insertDesc_sorted (r : Database.Row) (l : list Database.Row) :
  StronglySorted (fun x y => Database.total_seconds y <= Database.total_seconds x) l ->
  StronglySorted (fun x y => Database.total_seconds y <= Database.total_seconds x)
                 (Database.insertDesc r l).
Proof.
  induction 1 as [|y l Hsorted IH Hall]; simpl.
  - repeat constructor.
  - destruct (Z.ltb_spec (Database.total_seconds r) (Database.total_seconds y)) as [Hlt|Hge].
    + constructor; [exact IH |].
      apply Forall_forall. intros x Hx. apply insertDesc_In in Hx.
      destruct Hx as [->|Hx]; [lia |].
      rewrite Forall_forall in Hall. now apply Hall.
    + constructor; [now constructor |].
      constructor; [exact Hge |].
      apply Forall_forall. intros x Hx. rewrite Forall_forall in Hall.
      specialize (Hall x Hx). lia.
Qed.

Lemma orderByTotalDesc_sorted (rows : list Database.Row) :
  StronglySorted (fun x y => Database.total_seconds y <= Database.total_seconds x)
                 (Database.orderByTotalDesc rows).
Proof.
  induction rows as [|r rows IH]; simpl; [constructor | now apply insertDesc_sorted].
Qed.

Lemma insertDesc_perm (r : Database.Row) (l : list Database.Row) :
  Permutation (r :: l) (Database.insertDesc r l).
Proof.
  induction l as [|y l IH]; simpl; [reflexivity |].
  destruct (Database.total_seconds r <? Database.total_seconds y); [| reflexivity].
  rewrite perm_swap. now constructor.
Qed.

(** ORDER BY only reorders the rows. *)
Lemma orderByTotalDesc_perm (rows : list Database.Row) :
  Permutation rows (Database.orderByTotalDesc rows).
Proof.
  induction rows as [|r rows IH]; simpl; [constructor |].
  rewrite <- insertDesc_perm. now constructor.
Qed.

Lemma sum_perm (l l' : list Z) : Permutation l l' -> Spec.sum l = Spec.sum l'.
Proof.
  induction 1; simpl; lia.
Qed.

(** [rows.reduce((sum, row) => sum + row.total_seconds, 0)] is the sum. *)
Lemma reduce_sum (rows : list Database.Row) (start : Z) :
  fold_left (fun sum row => sum + Database.total_seconds row) rows start
  = start + Spec.sum (map Database.total_seconds rows).
Proof.
  revert start. induction rows as [|r rows IH]; intros start; simpl; [lia |].
  rewrite IH. lia.
Qed.

Lemma addToGroup_sum (name : string) (seconds : Z) (groups : list Database.Row) :
  Spec.sum (map Database.total_seconds (Database.addToGroup name seconds groups))
  = Spec.sum (map Database.total_seconds groups) + seconds.
Proof.
  induction groups as [|g groups IH]; simpl; [lia |].
  destruct (String.eqb (Database.row_app_name g) name); simpl; lia.
Qed.

(** GROUP BY keeps the seconds: the totals of the groups add up to the
    durations of the rows. *)
Lemma groupByAppName_sum (rows : list Database.UsageLog) :
  Spec.sum (map Database.total_seconds (Database.groupByAppName rows))
  = Spec.sum (map Database.duration_seconds rows).
Proof.
  unfold Database.groupByAppName.
  assert (H : forall groups,
    Spec.sum (map Database.total_seconds
      (fold_left (fun gs r => Database.addToGroup (Database.app_name r)
                                (Database.duration_seconds r) gs) rows groups))
    = Spec.sum (map Database.total_seconds groups)
      + Spec.sum (map Database.duration_seconds rows)).
  { induction rows as [|r rows IH]; intros groups; simpl; [lia |].
    rewrite IH, addToGroup_sum. lia. }
  now rewrite H.
Qed.

Lemma addToGroup_names (name : string) (seconds : Z) (groups : list Database.Row) :
  NoDup (map Database.row_app_name groups) ->
  NoDup (map Database.row_app_name (Database.addToGroup name seconds groups)) /\
  (forall n, In n (map Database.row_app_name (Database.addToGroup name seconds groups))
             <-> n = name \/ In n (map Database.row_app_name groups)).
Proof.
  induction groups as [|g groups IH]; simpl; intros Hnd.
  - split; [repeat constructor; intros [] | intuition].
  - inversion Hnd as [|? ? Hnotin Hnd']; subst.
    destruct (String.eqb_spec (Database.row_app_name g) name) as [E|E]; simpl.
    + subst name. split; [now constructor | intuition].
    + destruct (IH Hnd') as [IHnd IHin]. split.
      * constructor; [| exact IHnd]. rewrite IHin. intuition.
      * intros n. rewrite IHin. intuition.
Qed.

(** GROUP BY gives one row to each application. *)
Lemma groupByAppName_NoDup (rows : list Database.UsageLog) :
  NoDup (map Database.row_app_name (Database.groupByAppName rows)).
Proof.
  unfold Database.groupByAppName.
  assert (H : forall groups, NoDup (map Database.row_app_name groups) ->
    NoDup (map Database.row_app_name
      (fold_left (fun gs r => Database.addToGroup (Database.app_name r)
                                (Database.duration_seconds r) gs) rows groups))).
  { induction rows as [|r rows IH]; intros groups Hnd; simpl; [exact Hnd |].
    apply IH. now apply addToGroup_names. }
  apply H. constructor.
Qed.

(** *** getUsageStats *)

Lemma apps_totalSeconds (totalTime : Z) (rows : list Database.Row) :
  map FormattedRow.totalSeconds (map (Database.formatRow totalTime) rows)
  = map Database.total_seconds rows.
Proof.
  rewrite map_map. apply map_ext. reflexivity.
Qed.

Lemma StronglySorted_map {A B : Type} (f : A -> B) (R : B -> B -> Prop) (l : list A) :
  StronglySorted (fun x y => R (f x) (f y)) l -> StronglySorted R (map f l).
Proof.
  induction 1 as [|x l Hsorted IH Hall]; simpl; constructor; [exact IH |].
  apply Forall_map. exact Hall.
Qed.

(** What a resolved [getUsageStats] holds, in terms of the rows of its
    query. *)
Lemma getUsageStats_resolved (clock : Z) (period : string) (db : Database.t)
    (stats : Database.UsageStats) :
  Database.getUsageStats clock SQLITE_OK period db = Resolved stats ->
  let rows := Database.all (Database.queryOf clock period) db in
  let grandTotal := Spec.sum (map Database.total_seconds rows) in
  Database.apps stats = map (Database.formatRow grandTotal) rows /\
  Database.totalSeconds stats = grandTotal /\
  Database.totalTime stats = Database.formatDuration grandTotal /\
  Database.period stats = period.
Proof.
  unfold Database.getUsageStats. rewrite reduce_sum, Z.add_0_l.
  intros H. injection H as <-. cbv zeta. repeat split.
Qed.

(** The percentages that [getUsageStats] computes on doubles are those of
    the exact formula or one less, for every total up to 200 seconds. *)
Lemma percentageOf_close_upto :
  forallb (fun total =>
    forallb (fun seconds =>
      let computed := Database.percentageOf (Z.of_nat seconds) (Z.of_nat total) in
      let exact := Spec.percentage (Z.of_nat seconds) (Z.of_nat total) in
      (computed =? exact) || (computed =? exact - 1))
      (seq 0 (S total)))
    (seq 1 200) = true.
Proof. vm_compute. reflexivity. Qed.

(** C7, as amended.  The applications of a resolved [getUsageStats] come
    greatest [totalSeconds] first, and, with [grandTotal] the sum of their
    [totalSeconds]: the percentage of each is what the program computes on
    doubles, [Math.round((totalSeconds / grandTotal) * 100)] when
    [grandTotal > 0], and every percentage is 0 when [grandTotal] is 0. *)
Theorem getUsageStats_sorted_percentages
    (clock : Z) (period : string) (db : Database.t) (stats : Database.UsageStats) :
  Database.getUsageStats clock SQLITE_OK period db = Resolved stats ->
  let grandTotal := Spec.sum (map FormattedRow.totalSeconds (Database.apps stats)) in
  StronglySorted (fun x y => FormattedRow.totalSeconds y <= FormattedRow.totalSeconds x)
                 (Database.apps stats) /\
  Forall (fun app =>
            FormattedRow.percentage app
            = if 0 <? grandTotal
              then Js.Math_round
                     (PrimFloat.mul
                        (PrimFloat.div (Js.number (FormattedRow.totalSeconds app))
                                       (Js.number grandTotal))
                        (Js.number 100))
              else 0)
         (Database.apps stats) /\
  (grandTotal = 0 ->
   Forall (fun app => FormattedRow.percentage app = 0) (Database.apps stats)).
Proof.
  intros Hres. apply getUsageStats_resolved in Hres. cbv zeta in Hres.
  destruct Hres as (Happs & _). cbv zeta. rewrite Happs, apps_totalSeconds.
  set (rows := Database.all (Database.queryOf clock period) db).
  set (grandTotal := Spec.sum (map Database.total_seconds rows)).
  repeat split.
  - apply StronglySorted_map. exact (orderByTotalDesc_sorted _).
  - apply Forall_map, Forall_forall. intros r _. reflexivity.
  - intros Hzero. apply Forall_map, Forall_forall. intros r _.
    unfold Database.formatRow, Database.percentageOf. simpl. now rewrite Hzero.
Qed.

(** Safari for 70 seconds and Mail for 30, all on one day. *)
Lemma getUsageStats_sorted_percentages_witness :
  exists stats,
    Database.getUsageStats 1704070800000 SQLITE_OK "all"
      (Database.mk [Database.mkUsageLog 1 "Mail" 30 1704067200 "2024-01-01";
                    Database.mkUsageLog 2 "Safari" 70 1704067300 "2024-01-01"] 2)
    = Resolved stats /\
    map FormattedRow.appName (Database.apps stats) = ["Safari"; "Mail"] /\
    StronglySorted (fun x y => FormattedRow.totalSeconds y <= FormattedRow.totalSeconds x)
                   (Database.apps stats) /\
    map FormattedRow.percentage (Database.apps stats) = [70; 30].
Proof.
  eexists. split; [vm_compute; reflexivity |].
  split; [reflexivity |]. split; [| reflexivity].
  match goal with
  | |- StronglySorted _ (Database.apps ?s) =>
      apply (getUsageStats_sorted_percentages 1704070800000 "all"
               (Database.mk [Database.mkUsageLog 1 "Mail" 30 1704067200 "2024-01-01";
                             Database.mkUsageLog 2 "Safari" 70 1704067300 "2024-01-01"] 2) s)
  end.
  vm_compute. reflexivity.
Defined.

(** C7 fails as stated.  Safari for 23 seconds and Mail for 17: the exact
    percentage of Safari is 57.5, which rounds to 58; on doubles
    [(23 / 40) * 100] is 57.49999999999999 and [getUsageStats] answers 57. *)
Lemma percentage_of_23_in_40 :
  match Database.getUsageStats 1704070800000 SQLITE_OK "all"
          (Database.mk [Database.mkUsageLog 1 "Safari" 23 1704067200 "2024-01-01";
                        Database.mkUsageLog 2 "Mail" 17 1704067300 "2024-01-01"] 2) with
  | Resolved stats =>
      map (fun app => (FormattedRow.appName app, FormattedRow.totalSeconds app,
                       FormattedRow.percentage app)) (Database.apps stats)
      = [("Safari", 23, 57); ("Mail", 17, 43)] /\
      map (fun app => Spec.percentage (FormattedRow.totalSeconds app)
                        (Spec.sum (map FormattedRow.totalSeconds (Database.apps stats))))
          (Database.apps stats)
      = [58; 43] /\
      ~ Forall (fun app =>
                  FormattedRow.percentage app
                  = Spec.percentage (FormattedRow.totalSeconds app)
                      (Spec.sum (map FormattedRow.totalSeconds (Database.apps stats))))
               (Database.apps stats)
  | Rejected _ => False
  end.
Proof.
  vm_compute. split; [reflexivity |]. split; [reflexivity |].
  intros H. inversion H as [|? ? Hhead _]. discriminate Hhead.
Qed.

(** A period that is none of the four names is answered by the query of
    ['today']. *)
Lemma queryOf_default (clock : Z) (period : string) :
  period <> "today" -> period <> "yesterday" -> period <> "week" -> period <> "all" ->
  Database.queryOf clock period = Database.queryOf clock "today".
Proof.
  intros H1 H2 H3 H4. unfold Database.queryOf.
  rewrite (proj2 (String.eqb_neq _ _) H1), (proj2 (String.eqb_neq _ _) H2),
    (proj2 (String.eqb_neq _ _) H3), (proj2 (String.eqb_neq _ _) H4).
  reflexivity.
Qed.

(** C10.  In a resolved [getUsageStats]: [totalSeconds] is the sum of the
    [totalSeconds] of the applications returned (and the sum of the
    durations of the rows the period selects), [totalTime] is
    [formatDuration(totalSeconds)], and [period] is the argument as given.
    For a period that is none of today, yesterday, week and all, the
    applications and the totals are those of ['today']. *)
Theorem getUsageStats_totals
    (clock : Z) (period : string) (db : Database.t) (stats : Database.UsageStats) :
  Database.getUsageStats clock SQLITE_OK period db = Resolved stats ->
  Database.totalSeconds stats
  = Spec.sum (map FormattedRow.totalSeconds (Database.apps stats)) /\
  Database.totalSeconds stats
  = Spec.sum (map Database.duration_seconds
                (filter (Database.selects (Database.queryOf clock period))
                        (Database.usage_logs db))) /\
  Database.totalTime stats = Database.formatDuration (Database.totalSeconds stats) /\
  Database.period stats = period /\
  (period <> "today" -> period <> "yesterday" -> period <> "week" -> period <> "all" ->
   exists today,
     Database.getUsageStats clock SQLITE_OK "today" db = Resolved today /\
     Database.apps stats = Database.apps today /\
     Database.totalSeconds stats = Database.totalSeconds today /\
     Database.totalTime stats = Database.totalTime today).
Proof.
  intros Hres. pose proof (getUsageStats_resolved _ _ _ _ Hres) as H.
  cbv zeta in H. destruct H as (Happs & Htotal & Htime & Hperiod).
  split; [| split; [| split; [| split]]].
  - now rewrite Happs, apps_totalSeconds.
  - rewrite Htotal. unfold Database.all.
    rewrite <- (sum_perm _ _ (Permutation_map _ (orderByTotalDesc_perm _))).
    apply groupByAppName_sum.
  - now rewrite Htime, Htotal.
  - exact Hperiod.
  - intros H1 H2 H3 H4.
    destruct (Database.getUsageStats clock SQLITE_OK "today" db) as [today|err] eqn:Htoday;
      [| discriminate Htoday].
    exists today. split; [reflexivity |].
    pose proof (getUsageStats_resolved _ _ _ _ Htoday) as H.
    cbv zeta in H. destruct H as (Happs' & Htotal' & Htime' & _).
    rewrite <- (queryOf_default clock period H1 H2 H3 H4) in Happs', Htotal', Htime'.
    repeat split; congruence.
Qed.

(** A period the [switch] does not name, on a table with rows of two days. *)
Lemma getUsageStats_totals_witness :
  exists stats,
    Database.getUsageStats 1704070800000 SQLITE_OK "month"
      (Database.mk [Database.mkUsageLog 1 "Safari" 3600 1704067200 "2024-01-01";
                    Database.mkUsageLog 2 "Mail" 61 1704067300 "2024-01-01";
                    Database.mkUsageLog 3 "Xcode" 500 1703980800 "2023-12-31"] 3)
    = Resolved stats /\
    Database.totalSeconds stats = 3661 /\
    Database.totalTime stats = "1h 1m 1s" /\
    Database.period stats = "month" /\
    map FormattedRow.appName (Database.apps stats) = ["Safari"; "Mail"].
Proof.
  eexists. split; [vm_compute; reflexivity |].
  match goal with
  | |- Database.totalSeconds ?s = _ /\ _ =>
      destruct (getUsageStats_totals 1704070800000 "month"
                  (Database.mk [Database.mkUsageLog 1 "Safari" 3600 1704067200 "2024-01-01";
                                Database.mkUsageLog 2 "Mail" 61 1704067300 "2024-01-01";
                                Database.mkUsageLog 3 "Xcode" 500 1703980800 "2023-12-31"] 3)
                  s ltac:(vm_compute; reflexivity))
        as (Hsum & _ & Htime & Hperiod & Hdefault)
  end.
  split; [rewrite Hsum; reflexivity |].
  split; [rewrite Htime; reflexivity |].
  split; [exact Hperiod |].
  destruct Hdefault as (today & Htoday & Happs & _); try discriminate.
  rewrite Happs. vm_compute in Htoday. injection Htoday as <-. reflexivity.
Defined.

(** * More of the code *)

(** ** The session over its life *)

(** All that one call of [trackCurrentApp] can do.  It leaves the tracker
    as it is; or it sets the current application and its start time to what
    the sample sees and when; or it does so after appending one row, for the
    application that was current, a non-empty name other than the one seen,
    with the whole seconds since its start time, one or more, and
    announcing the row to the window if there is one. *)
Lemma trackCurrentApp_shape (s : Sample) (a : t) :
  trackCurrentApp s a = a \/
  (exists appName,
     probe s = Resolved appName /\
     trackCurrentApp s a = withCurrent (Some appName) (Some (now s)) a) \/
  (exists appName prev row,
     probe s = Resolved appName /\
     currentApp a = Some prev /\ prev <> "" /\ prev <> appName /\
     Database.app_name row = prev /\
     Database.duration_seconds row
     = (now s - Js.toNumber (currentAppStartTime a)) / 1000 /\
     0 < Database.duration_seconds row /\
     Database.id row = Database.sqlite_sequence (db a) + 1 /\
     trackCurrentApp s a
     = mk (Database.mk (Database.usage_logs (db a) ++ [row]) (Database.id row))
          (Some appName) (Some (now s)) (trackingInterval a) (isTracking a)
          (mainWindow a) (intervals a) (timerCount a)
          (if mainWindow a then S (usageUpdated a) else usageUpdated a)).
Proof.
  destruct a as [d ca st ti it mw iv tc uu], s as [[appName|err] now clock io];
    unfold trackCurrentApp;
    cbn [probe AppUsageTracker.now AppUsageTracker.clock AppUsageTracker.io
         currentApp currentAppStartTime db trackingInterval isTracking mainWindow
         intervals timerCount usageUpdated];
    [| left; reflexivity].
  destruct (Js.truthy ca && Js.strictNe ca appName) eqn:Esw.
  - apply andb_prop in Esw. destruct Esw as [Etruthy Ene].
    destruct ca as [[|c prev]|]; try discriminate Etruthy.
    destruct (Z.ltb_spec 0 ((now - Js.toNumber st) / 1000)) as [Hpos|Hnpos].
    + destruct io as [|err]; [| left; reflexivity].
      cbn [Database.logUsage str]. unfold sendUsageUpdate, withDb, withCurrent.
      cbn [mainWindow db currentApp currentAppStartTime trackingInterval isTracking
           intervals timerCount usageUpdated].
      right. right.
      exists appName, (String c prev),
        (Database.mkUsageLog (Database.sqlite_sequence d + 1) (String c prev)
           ((now - Js.toNumber st) / 1000) (clock / 1000) (Js.toISODate clock)).
      split; [reflexivity |]. split; [reflexivity |]. split; [discriminate |].
      split.
      { intros E. cbn [Js.strictNe] in Ene. rewrite E, String.eqb_refl in Ene.
        discriminate Ene. }
      split; [reflexivity |]. split; [reflexivity |]. split; [exact Hpos |].
      split; [reflexivity |].
      destruct mw;
        cbn [mainWindow db currentApp currentAppStartTime trackingInterval isTracking
             intervals timerCount usageUpdated Database.id];
        rewrite Ene; reflexivity.
    + cbn [currentApp]. rewrite Ene. right. left. exists appName. split; reflexivity.
  - cbn [currentApp]. destruct (Js.strictNe ca appName).
    + right. left. exists appName. split; reflexivity.
    + left. reflexivity.
Qed.

(** All that [stopTracking] can do to a session that is tracking: it
    clears the interval, and keeps the database or appends one row, for the
    current application, non-empty, with the whole seconds since its start
    time, one or more. *)
Lemma stopTracking_shape (now clock : Z) (io : SqliteResult) (a : t) :
  isTracking a = true ->
  exists d,
    stopTracking now clock io a
    = mk d (currentApp a) (currentAppStartTime a) None false (mainWindow a)
         (match trackingInterval a with
          | Some handle => filter (fun h => negb (Nat.eqb h handle)) (intervals a)
          | None => intervals a
          end)
         (timerCount a) (usageUpdated a) /\
    (d = db a \/
     exists prev start row,
       currentApp a = Some prev /\ prev <> "" /\
       currentAppStartTime a = Some start /\
       Database.app_name row = prev /\
       Database.duration_seconds row = (now - start) / 1000 /\
       0 < Database.duration_seconds row /\
       Database.id row = Database.sqlite_sequence (db a) + 1 /\
       d = Database.mk (Database.usage_logs (db a) ++ [row]) (Database.id row)).
Proof.
  intros Hon. destruct a as [d ca st ti it mw iv tc uu]. cbn in Hon. subst it.
  destruct ti as [handle|];
    cbv [stopTracking withIsTracking clearInterval isTracking negb trackingInterval
         currentApp currentAppStartTime db mainWindow intervals timerCount usageUpdated].
  all: destruct (Js.truthy ca && Js.truthyDate st) eqn:Eset;
    [| exists d; split; [reflexivity | left; reflexivity]].
  all: apply andb_prop in Eset; destruct Eset as [Etruthy Edate].
  all: destruct ca as [[|c prev]|]; try discriminate Etruthy.
  all: destruct st as [start|]; try discriminate Edate.
  all: cbn [Js.toNumber].
  all: destruct (Z.ltb_spec 0 ((now - start) / 1000)) as [Hpos|Hnpos];
    [| exists d; split; [reflexivity | left; reflexivity]].
  all: destruct io as [|err];
    cbv [Database.logUsage str withDb isTracking trackingInterval
         currentApp currentAppStartTime db mainWindow intervals timerCount usageUpdated];
    [| exists d; split; [reflexivity | left; reflexivity]].
  all: exists (Database.mk
                 (Database.usage_logs d ++
                  [Database.mkUsageLog (Database.sqlite_sequence d + 1) (String c prev)
                     ((now - start) / 1000) (clock / 1000) (Js.toISODate clock)])
                 (Database.sqlite_sequence d + 1));
    (split; [reflexivity |]); right;
    exists (String c prev), start,
           (Database.mkUsageLog (Database.sqlite_sequence d + 1) (String c prev)
              ((now - start) / 1000) (clock / 1000) (Js.toISODate clock));
    (split; [reflexivity |]); (split; [discriminate |]);
    (split; [reflexivity |]); (split; [reflexivity |]); (split; [reflexivity |]);
    (split; [exact Hpos |]); split; reflexivity.
Qed.

Lemma stopTracking_idle (now clock : Z) (io : SqliteResult) (a : t) :
  isTracking a = false -> stopTracking now clock io a = a.
Proof. intros Hoff. unfold stopTracking. now rewrite Hoff. Qed.

Lemma consistent_trackCurrentApp (s : Sample) (a : t) :
  Main.consistent a -> Main.consistent (trackCurrentApp s a).
Proof.
  intros Hinv.
  destruct (trackCurrentApp_shape s a)
    as [->|[(appName & _ & ->)|(appName & prev & row & _ & _ & _ & _ & _ & _ & _ & _ & ->)]];
    [exact Hinv | |];
    destruct Hinv as (Hcur & Hon & Hiv); unfold Main.consistent; cbn;
    (split; [split; discriminate | split; assumption]).
Qed.

Lemma consistent_startTracking (a : t) :
  Main.consistent a -> Main.consistent (startTracking a).
Proof.
  intros Hinv. unfold startTracking.
  destruct (isTracking a) eqn:Eon; [exact Hinv |].
  destruct Hinv as (Hcur & Hon & Hiv). rewrite Eon in Hon.
  destruct (trackingInterval a) eqn:Eti.
  { exfalso. assert (H : false = true) by (apply Hon; discriminate). discriminate H. }
  unfold Main.consistent. cbn. rewrite Hiv.
  split; [exact Hcur |]. split; [| reflexivity]. split; [discriminate | reflexivity].
Qed.

Lemma consistent_stopTracking (now clock : Z) (io : SqliteResult) (a : t) :
  Main.consistent a -> Main.consistent (stopTracking now clock io a).
Proof.
  intros Hinv.
  destruct (isTracking a) eqn:Eon;
    [| rewrite stopTracking_idle by exact Eon; exact Hinv].
  destruct Hinv as (Hcur & Hon & Hiv).
  destruct (stopTracking_shape now clock io a Eon) as (d & -> & _).
  unfold Main.consistent. cbn. split; [exact Hcur |].
  split; [split; [discriminate | congruence] |].
  destruct (trackingInterval a) as [handle|]; rewrite Hiv; [| reflexivity].
  cbn. now rewrite Nat.eqb_refl.
Qed.

Lemma consistent_handle (r : Main.Request) (a : t) :
  Main.consistent a -> Main.consistent (snd (Main.handle r a)).
Proof.
  intros Hinv.
  destruct r as [period clock io| |now clock io| |io|s| |now clock io|now clock io];
    cbn [Main.handle snd].
  - now destruct (Database.getUsageStats clock io _ (db a)).
  - now apply consistent_startTracking.
  - now apply consistent_stopTracking.
  - exact Hinv.
  - destruct io; cbn [Database.clearAllData snd]; [| exact Hinv].
    unfold sendUsageUpdate, withDb. cbn [mainWindow].
    destruct (mainWindow a); exact Hinv.
  - now apply consistent_trackCurrentApp.
  - exact Hinv.
  - now apply consistent_stopTracking.
  - now apply consistent_stopTracking.
Qed.

(** X1.  Whatever is asked of a tracker, in whatever order and with
    whatever answers from the probe and from SQLite, the session hangs
    together after it as it did before: the current application and its
    start time are set together, the interval handle is held exactly while
    tracking, and no interval is set but the one whose handle is held. *)
Theorem session_stays_consistent (requests : list Main.Request) (a : t) :
  Main.consistent a -> Main.consistent (Main.serve requests a).
Proof.
  revert a. induction requests as [|r requests IH]; intros a Hinv; [exact Hinv |].
  unfold Main.serve. cbn [fold_left]. apply IH. now apply consistent_handle.
Qed.

(** A new tracker, started twice, polled, stopped and started again. *)
Lemma session_stays_consistent_witness :
  let a := Main.serve [Main.CreateWindow; Main.StartTracking; Main.StartTracking;
                       Main.Poll (sees "Safari" 0); Main.Poll (sees "Mail" 5000);
                       Main.StopTracking 9000 9000 SQLITE_OK; Main.StartTracking]
                      (create Database.empty) in
  Main.consistent a /\ intervals a = [1%nat].
Proof.
  intros a. split; [| reflexivity].
  apply session_stays_consistent.
  repeat split; (reflexivity || discriminate || (intros H; exact H) || idtac).
  all: cbn; intros H; try reflexivity; try discriminate H; try (exfalso; now apply H).
Defined.

Lemma sound_app (rows : list Database.UsageLog) (row : Database.UsageLog) (seq seq' : Z) :
  Main.sound (Database.mk rows seq) ->
  Database.app_name row <> "" -> 0 < Database.duration_seconds row ->
  Main.sound (Database.mk (rows ++ [row]) seq').
Proof.
  unfold Main.sound. cbn. intros Hrows Hname Hpos.
  apply Forall_app. split; [exact Hrows |]. constructor; [split; assumption | constructor].
Qed.

Lemma sound_handle (r : Main.Request) (a : t) :
  Main.sound (db a) -> Main.sound (db (snd (Main.handle r a))).
Proof.
  intros Hsound.
  assert (Hstop : forall now clock io, Main.sound (db (stopTracking now clock io a))).
  { intros now clock io.
    destruct (isTracking a) eqn:Eon;
      [| rewrite stopTracking_idle by exact Eon; exact Hsound].
    destruct (stopTracking_shape now clock io a Eon) as (d & -> & Hd). cbn [db].
    destruct Hd as [->|(prev & start & row & _ & Hne & _ & Hname & _ & Hpos & _ & ->)];
      [exact Hsound |].
    destruct (db a) as [rows seq]. apply (sound_app rows row seq); [exact Hsound | |exact Hpos].
    now rewrite Hname. }
  destruct r as [period clock io| |now clock io| |io|s| |now clock io|now clock io];
    cbn [Main.handle snd]; try apply Hstop; try exact Hsound.
  - now destruct (Database.getUsageStats clock io _ (db a)).
  - unfold startTracking. now destruct (isTracking a).
  - destruct io; cbn [Database.clearAllData snd]; [| exact Hsound].
    rewrite db_sendUsageUpdate. constructor.
  - destruct (trackCurrentApp_shape s a)
      as [->|[(appName & _ & ->)|(appName & prev & row & _ & _ & Hne & _ & Hname & _ & Hpos
                                  & _ & ->)]];
      [exact Hsound | exact Hsound |]. cbn [db].
    destruct (db a) as [rows seq]. apply (sound_app rows row seq); [exact Hsound | |exact Hpos].
    now rewrite Hname.
Qed.

(** X2.  The tracker never writes a row without a name or without time:
    whatever is asked of it, in whatever order, if every row of the table
    had a non-empty application name and a duration of one second or more
    before, every row has after. *)
Theorem rows_stay_sound (requests : list Main.Request) (a : t) :
  Main.sound (db a) -> Main.sound (db (Main.serve requests a)).
Proof.
  revert a. induction requests as [|r requests IH]; intros a Hsound; [exact Hsound |].
  unfold Main.serve. cbn [fold_left]. apply IH. now apply sound_handle.
Qed.

(** Switches after a bounce of 300 ms and from an application without a
    name, then a stop within the second. *)
Lemma rows_stay_sound_witness :
  let a := Main.serve [Main.StartTracking; Main.Poll (sees "Safari" 0);
                       Main.Poll (sees "" 300); Main.Poll (sees "Mail" 5000);
                       Main.Poll (sees "Xcode" 9000);
                       Main.StopTracking 9400 9400 SQLITE_OK]
                      (create Database.empty) in
  Main.sound (db a) /\ attributions (db a) = [("Mail", 4)].
Proof.
  intros a. split; [| reflexivity].
  apply rows_stay_sound. constructor.
Defined.

(** X3.  Closing the last window and then quitting stops the tracking
    twice; the second stop does nothing, so the final usage of the current
    application is written once.  More generally a [stopTracking] after a
    [stopTracking] changes nothing. *)
Theorem quitting_flushes_once
    (a : t) (now1 clock1 now2 clock2 : Z) (io1 io2 : SqliteResult) :
  Main.serve [Main.WindowAllClosed now1 clock1 io1; Main.BeforeQuit now2 clock2 io2] a
  = Main.serve [Main.WindowAllClosed now1 clock1 io1] a /\
  stopTracking now2 clock2 io2 (stopTracking now1 clock1 io1 a)
  = stopTracking now1 clock1 io1 a /\
  isTracking (stopTracking now1 clock1 io1 a) = false.
Proof.
  assert (Hoff : isTracking (stopTracking now1 clock1 io1 a) = false).
  { destruct (isTracking a) eqn:Eon;
      [| now rewrite stopTracking_idle by exact Eon].
    now destruct (stopTracking_shape now1 clock1 io1 a Eon) as (d & -> & _). }
  assert (Htwice : stopTracking now2 clock2 io2 (stopTracking now1 clock1 io1 a)
                   = stopTracking now1 clock1 io1 a)
    by (apply stopTracking_idle; exact Hoff).
  split; [exact Htwice | split; [exact Htwice | exact Hoff]].
Qed.

(** ** Time attributed and time elapsed *)

Lemma sum_app (l l' : list Z) : Spec.sum (l ++ l') = Spec.sum l + Spec.sum l'.
Proof. induction l as [|x l IH]; simpl; lia. Qed.

Lemma attributed_append (d : Database.t) (row : Database.UsageLog) (seq : Z) :
  Main.attributed (Database.mk (Database.usage_logs d ++ [row]) seq)
  = Main.attributed d + Database.duration_seconds row.
Proof.
  unfold Main.attributed. cbn [Database.usage_logs].
  rewrite map_app, sum_app. simpl. lia.
Qed.

(** A sample taken at or after the start time of the current application
    attributes no more than the time by which the start time advances. *)
Lemma trackCurrentApp_running (s : Sample) (a : t) (t1 : Z) :
  currentAppStartTime a = Some t1 -> t1 <= now s ->
  exists t2,
    currentAppStartTime (trackCurrentApp s a) = Some t2 /\ t1 <= t2 <= now s /\
    1000 * (Main.attributed (db (trackCurrentApp s a)) - Main.attributed (db a)) <= t2 - t1.
Proof.
  intros Hstart Hle.
  destruct (trackCurrentApp_shape s a)
    as [->|[(appName & _ & ->)|(appName & prev & row & _ & _ & _ & _ & _ & Hdur & _ & _ & ->)]].
  - exists t1. split; [exact Hstart |]. lia.
  - exists (now s). unfold withCurrent. cbn [currentAppStartTime db].
    split; [reflexivity |]. lia.
  - exists (now s). cbn [currentAppStartTime db]. split; [reflexivity |].
    rewrite attributed_append, Hdur, Hstart. cbn [Js.toNumber].
    split; [lia |]. Z.to_euclidean_division_equations; lia.
Qed.

Lemma run_running (samples : list Sample) (a : t) (t1 tmax : Z) :
  currentAppStartTime a = Some t1 ->
  StronglySorted Z.le (map now samples) ->
  Forall (fun s => t1 <= now s <= tmax) samples -> t1 <= tmax ->
  exists t2,
    currentAppStartTime (run (map Track samples) a) = Some t2 /\ t1 <= t2 <= tmax /\
    1000 * (Main.attributed (db (run (map Track samples) a)) - Main.attributed (db a))
    <= t2 - t1.
Proof.
  revert a t1. induction samples as [|s samples IH]; intros a t1 Hstart Hsorted Hall Hmax.
  - exists t1. unfold run. cbn [map fold_left]. split; [exact Hstart |]. lia.
  - inversion Hsorted as [|? ? Hsorted' Hnext]; subst.
    inversion Hall as [|? ? Hs Hall']; subst.
    destruct (trackCurrentApp_running s a t1 Hstart ltac:(lia)) as (t2 & Hstart2 & Ht2 & Hatt).
    destruct (IH (trackCurrentApp s a) t2 Hstart2 Hsorted') as (t3 & Hstart3 & Ht3 & Hatt3).
    + rewrite Forall_forall in Hall'. apply Forall_forall. intros r Hr.
      specialize (Hall' r Hr).
      rewrite Forall_forall in Hnext. specialize (Hnext (now r) (in_map now _ _ Hr)). lia.
    + lia.
    + exists t3. unfold run in *. cbn [map fold_left step].
      split; [exact Hstart3 |]. lia.
Qed.

Lemma run_fresh (samples : list Sample) (a : t) (t0 tmax : Z) :
  currentApp a = None -> currentAppStartTime a = None ->
  StronglySorted Z.le (map now samples) ->
  Forall (fun s => t0 <= now s <= tmax) samples -> t0 <= tmax ->
  (currentAppStartTime (run (map Track samples) a) = None /\
   db (run (map Track samples) a) = db a) \/
  exists t2,
    currentAppStartTime (run (map Track samples) a) = Some t2 /\ t0 <= t2 <= tmax /\
    1000 * (Main.attributed (db (run (map Track samples) a)) - Main.attributed (db a))
    <= t2 - t0.
Proof.
  revert a. induction samples as [|s samples IH]; intros a Hcur Hstart Hsorted Hall Hmax.
  - left. split; [exact Hstart | reflexivity].
  - inversion Hsorted as [|? ? Hsorted' Hnext]; subst.
    inversion Hall as [|? ? Hs Hall']; subst.
    unfold run in *. cbn [map fold_left step].
    destruct (trackCurrentApp_shape s a)
      as [->|[(appName & _ & ->)|(appName & prev & row & _ & Hprev & _)]].
    + now apply IH.
    + right.
      destruct (run_running samples (withCurrent (Some appName) (Some (now s)) a)
                  (now s) tmax) as (t2 & Hstart2 & Ht2 & Hatt); try reflexivity.
      * exact Hsorted'.
      * rewrite Forall_forall in Hall'. apply Forall_forall. intros r Hr.
        specialize (Hall' r Hr).
        rewrite Forall_forall in Hnext. specialize (Hnext (now r) (in_map now _ _ Hr)). lia.
      * lia.
      * exists t2. unfold run in *. split; [exact Hstart2 |].
        change (db (withCurrent (Some appName) (Some (now s)) a)) with (db a) in Hatt. lia.
    + rewrite Hcur in Hprev. discriminate Hprev.
Qed.

(** What [stopTracking] attributes is no more than the time since the start
    time of the current application. *)
Lemma stopTracking_attributes (now clock : Z) (io : SqliteResult) (a : t) :
  (forall start, currentAppStartTime a = Some start ->
     start <= now ->
     1000 * (Main.attributed (db (stopTracking now clock io a)) - Main.attributed (db a))
     <= now - start) /\
  (currentAppStartTime a = None -> db (stopTracking now clock io a) = db a).
Proof.
  destruct (isTracking a) eqn:Eon;
    [| rewrite stopTracking_idle by exact Eon; split; [intros; lia | reflexivity]].
  destruct (stopTracking_shape now clock io a Eon) as (d & -> & Hd). cbn [db].
  destruct Hd as [->|(prev & start & row & _ & _ & Hstart & _ & Hdur & _ & _ & ->)].
  - split; [intros; lia | reflexivity].
  - split.
    + intros start' Hstart' Hle. rewrite Hstart in Hstart'. injection Hstart' as <-.
      rewrite attributed_append, Hdur. Z.to_euclidean_division_equations; lia.
    + intros Hnone. rewrite Hnone in Hstart. discriminate Hstart.
Qed.



(** ** The window is told of every switch that is written *)

Lemma trackCurrentApp_announces (s : Sample) (a : t) :
  mainWindow (trackCurrentApp s a) = mainWindow a /\
  (if mainWindow a
   then (usageUpdated (trackCurrentApp s a) + List.length (Database.usage_logs (db a))
         = usageUpdated a + List.length (Database.usage_logs (db (trackCurrentApp s a))))%nat
   else usageUpdated (trackCurrentApp s a) = usageUpdated a).
Proof.
  destruct (trackCurrentApp_shape s a)
    as [->|[(appName & _ & ->)|(appName & prev & row & _ & _ & _ & _ & _ & _ & _ & _ & ->)]].
  - split; [reflexivity |]. destruct (mainWindow a); reflexivity.
  - split; [reflexivity |]. unfold withCurrent. cbn [mainWindow usageUpdated db].
    destruct (mainWindow a); reflexivity.
  - cbn [mainWindow usageUpdated db Database.usage_logs]. split; [reflexivity |].
    destruct (mainWindow a); [| reflexivity].
    rewrite length_app. cbn [List.length]. lia.
Qed.

(** X5.  With a window, the ['usage-updated'] messages sent over any
    samples are as many as the rows the samples wrote; without one, none is
    sent.  The row that [stopTracking] writes is not announced. *)
Theorem usage_updated_per_row (samples : list Sample) (a : t) :
  (if mainWindow a
   then (usageUpdated (run (map Track samples) a)
         + List.length (Database.usage_logs (db a))
         = usageUpdated a
           + List.length (Database.usage_logs (db (run (map Track samples) a))))%nat
   else usageUpdated (run (map Track samples) a) = usageUpdated a) /\
  (forall now clock io,
     usageUpdated (stopTracking now clock io a) = usageUpdated a).
Proof.
  split.
  - revert a. induction samples as [|s samples IH]; intros a.
    + destruct (mainWindow a); reflexivity.
    + unfold run in *. cbn [map fold_left step].
      specialize (IH (trackCurrentApp s a)).
      destruct (trackCurrentApp_announces s a) as [Hwin Hstep].
      rewrite Hwin in IH. destruct (mainWindow a); lia.
  - intros now clock io.
    destruct (isTracking a) eqn:Eon;
      [| now rewrite stopTracking_idle by exact Eon].
    now destruct (stopTracking_shape now clock io a Eon) as (d & -> & _).
Qed.

(** ** A rejected write is made again *)

Lemma trackCurrentApp_write_rejected
    (a : t) (prev appName err : string) (start now clock : Z) :
  currentApp a = Some prev -> prev <> "" -> prev <> appName ->
  currentAppStartTime a = Some start -> 1000 <= now - start ->
  trackCurrentApp (mkSample (Resolved appName) now clock (SQLITE_ERROR err)) a = a.
Proof.
  intros Hcur Hne Hsw Hstart Hsec. unfold trackCurrentApp. simpl.
  rewrite Hcur, Hstart, (truthy_Some _ Hne), (strictNe_other _ _ Hsw). simpl.
  now rewrite (proj2 (floor_seconds_pos _) Hsec).
Qed.

(** X6.  The attribution of a switch whose INSERT SQLite rejects is not
    lost: the next sample that sees the new application, its INSERT
    accepted, writes the outgoing application with the whole seconds from
    its start time to that later sample, and only then does the new
    application become current, since that later sample. *)
Theorem rejected_write_is_retried
    (a : t) (prev appName err : string) (start now1 clock1 now2 clock2 : Z) :
  currentApp a = Some prev -> prev <> "" -> prev <> appName ->
  currentAppStartTime a = Some start -> 1000 <= now1 - start -> now1 <= now2 ->
  let rejected :=
    trackCurrentApp (mkSample (Resolved appName) now1 clock1 (SQLITE_ERROR err)) a in
  let retried :=
    trackCurrentApp (mkSample (Resolved appName) now2 clock2 SQLITE_OK) rejected in
  written (db a) rejected = [] /\
  written (db a) retried = [(prev, (now2 - start) / 1000)] /\
  currentApp retried = Some appName /\ currentAppStartTime retried = Some now2.
Proof.
  intros Hcur Hne Hsw Hstart Hsec Hlater. cbv zeta.
  rewrite (trackCurrentApp_write_rejected a prev appName err start now1 clock1) by assumption.
  split; [now apply written_nothing |].
  rewrite (trackCurrentApp_switch a prev appName start now2 clock2) by (assumption || lia).
  split; [| split; reflexivity].
  unfold written, attributions. cbn [withCurrent db]. rewrite db_sendUsageUpdate.
  cbn [withDb db Database.usage_logs]. now rewrite skipn_map_app.
Qed.

(** Safari in front since 0; Mail seen at 5000 with the disk full, and seen
    again at 10000. *)
Lemma rejected_write_is_retried_witness :
  let a := trackCurrentApp (sees "Safari" 0) (startTracking (create Database.empty)) in
  written (db a)
    (trackCurrentApp (sees "Mail" 10000)
       (trackCurrentApp (mkSample (Resolved "Mail") 5000 5000 (SQLITE_ERROR "SQLITE_FULL")) a))
  = [("Safari", 10)].
Proof.
  intros a.
  apply (rejected_write_is_retried a "Safari" "Mail" "SQLITE_FULL" 0 5000 5000 10000 10000);
    (reflexivity || discriminate || lia).
Defined.

(** ** The store in use *)

(** X7.  After a [clearAllData] that SQLite accepts the store answers as an
    empty one: [getUsageStats] resolves, for every period and at every
    time, to no application, 0 seconds and ["0s"], and [getDailyStats] to
    no day; a [clearAllData] that SQLite rejects resolves to nothing and
    the rows stay. *)
Theorem cleared_store_is_empty (db : Database.t) :
  (exists cleared,
     Database.clearAllData SQLITE_OK db = Resolved cleared /\
     Database.usage_logs cleared = [] /\
     (forall clock period,
        Database.getUsageStats clock SQLITE_OK period cleared
        = Resolved (Database.mkUsageStats [] "0s" 0 period)) /\
     (forall clock days,
        DailyStats.getDailyStats clock SQLITE_OK days cleared = Resolved [])) /\
  (forall err,
     Database.clearAllData (SQLITE_ERROR err) db = Rejected err /\
     Store.apply db (Store.ClearAllData (SQLITE_ERROR err)) = db).
Proof.
  split.
  - exists (Database.mk [] (Database.sqlite_sequence db)).
    repeat split; reflexivity.
  - intros err. split; reflexivity.
Qed.

Lemma lastIDs_above (ops : list Store.Op) (db : Database.t) :
  StronglySorted Z.lt (Store.lastIDs ops db) /\
  Forall (fun lastID => Database.sqlite_sequence db < lastID) (Store.lastIDs ops db).
Proof.
  revert db. induction ops as [|op ops IH]; intros db; [split; constructor |].
  destruct op as [clock io appName durationSeconds|io];
    cbn [Store.lastIDs Store.apply]; destruct io as [|err];
    cbn [Database.logUsage Database.clearAllData]; try apply IH.
  - set (db' := Database.mk _ _).
    destruct (IH db') as [Hsorted Habove]. cbn [Database.sqlite_sequence db'] in Habove.
    split.
    + constructor; [exact Hsorted |]. exact Habove.
    + constructor; [lia |].
      apply (Forall_impl _ (P := fun i => Database.sqlite_sequence db + 1 < i));
        [intros; lia | exact Habove].
  - exact (IH (Database.mk [] (Database.sqlite_sequence db))).
Qed.

Lemma apply_ids (op : Store.Op) (db : Database.t) :
  StronglySorted Z.lt (map Database.id (Database.usage_logs db)) ->
  Forall (fun r => Database.id r <= Database.sqlite_sequence db) (Database.usage_logs db) ->
  StronglySorted Z.lt (map Database.id (Database.usage_logs (Store.apply db op))) /\
  Forall (fun r => Database.id r <= Database.sqlite_sequence (Store.apply db op))
         (Database.usage_logs (Store.apply db op)) /\
  Database.sqlite_sequence db <= Database.sqlite_sequence (Store.apply db op).
Proof.
  intros Hsorted Hbound.
  destruct op as [clock io appName durationSeconds|io]; destruct io as [|err];
    cbn [Store.apply Database.logUsage Database.clearAllData Database.usage_logs
         Database.sqlite_sequence];
    try (split; [exact Hsorted | split; [exact Hbound | lia]]).
  - split; [| split; [| lia]].
    + rewrite map_app. cbn [map Database.id].
      induction (Database.usage_logs db) as [|r rows IHrows]; cbn [map app].
      * repeat constructor.
      * inversion Hsorted as [|? ? Hs Hall]; subst.
        inversion Hbound as [|? ? Hr Hb]; subst.
        constructor; [now apply IHrows |].
        apply Forall_app. split; [exact Hall |]. constructor; [lia | constructor].
    + apply Forall_app. split.
      * apply (Forall_impl _ (P := fun r => Database.id r <= Database.sqlite_sequence db));
          [intros; lia | exact Hbound].
      * constructor; [cbn; lia | constructor].
  - split; [constructor | split; [constructor | lia]].
Qed.

Lemma fold_apply_ids (ops : list Store.Op) (d : Database.t) :
  StronglySorted Z.lt (map Database.id (Database.usage_logs d)) ->
  Forall (fun r => Database.id r <= Database.sqlite_sequence d) (Database.usage_logs d) ->
  StronglySorted Z.lt (map Database.id (Database.usage_logs (fold_left Store.apply ops d))).
Proof.
  revert d. induction ops as [|op rest IH]; intros d Hs Hb; [exact Hs |].
  cbn [fold_left]. destruct (apply_ids op d Hs Hb) as (Hs' & Hb' & _).
  now apply IH.
Qed.

(** X8.  The ids of the store are never used twice.  The values of
    [lastID] that successive calls of [logUsage] resolve to increase
    strictly, also across [clearAllData] and across rejected calls; and in
    a store that starts empty the ids of the rows of the table increase
    strictly in the order of insertion, whatever the calls. *)
Theorem ids_never_reused (ops : list Store.Op) (db : Database.t) :
  StronglySorted Z.lt (Store.lastIDs ops db) /\
  Forall (fun lastID => Database.sqlite_sequence db < lastID) (Store.lastIDs ops db) /\
  StronglySorted Z.lt
    (map Database.id (Database.usage_logs (fold_left Store.apply ops Database.empty))).
Proof.
  destruct (lastIDs_above ops db) as [Hsorted Habove].
  split; [exact Hsorted | split; [exact Habove |]].
  apply fold_apply_ids; constructor.
Qed.

(** ** What the statistics add up *)

Lemma addToGroup_tally (name : string) (seconds : Z) (n : string)
    (groups : list Database.Row) :
  let named := fun g => String.eqb (Database.row_app_name g) n in
  Spec.sum (map Database.total_seconds
              (filter named (Database.addToGroup name seconds groups)))
  = Spec.sum (map Database.total_seconds (filter named groups))
    + (if String.eqb name n then seconds else 0) /\
  Spec.sum (map Database.session_count
              (filter named (Database.addToGroup name seconds groups)))
  = Spec.sum (map Database.session_count (filter named groups))
    + (if String.eqb name n then 1 else 0).
Proof.
  cbv zeta. induction groups as [|g groups IH]; cbn [Database.addToGroup].
  - cbn [filter Database.row_app_name]. destruct (String.eqb name n); cbn; split; lia.
  - destruct (String.eqb_spec (Database.row_app_name g) name) as [E|E].
    + cbn [filter Database.row_app_name]. rewrite E.
      destruct (String.eqb name n); cbn [map Spec.sum fold_right Database.total_seconds
                                          Database.session_count]; split; lia.
    + cbn [filter]. destruct (String.eqb (Database.row_app_name g) n);
        cbn [map Spec.sum fold_right]; destruct IH as [IH1 IH2]; split;
        unfold Spec.sum in *; lia.
Qed.

(** GROUP BY puts into the row of an application the seconds and the
    number of its rows. *)
Lemma groupByAppName_tally (n : string) (rows : list Database.UsageLog) :
  let named := fun g => String.eqb (Database.row_app_name g) n in
  Spec.sum (map Database.total_seconds (filter named (Database.groupByAppName rows)))
  = Tally.seconds (Tally.rowsOf n rows) /\
  Spec.sum (map Database.session_count (filter named (Database.groupByAppName rows)))
  = Z.of_nat (List.length (Tally.rowsOf n rows)).
Proof.
  cbv zeta. unfold Database.groupByAppName.
  assert (H : forall groups,
    Spec.sum (map Database.total_seconds
      (filter (fun g => String.eqb (Database.row_app_name g) n)
         (fold_left (fun gs r => Database.addToGroup (Database.app_name r)
                                   (Database.duration_seconds r) gs) rows groups)))
    = Spec.sum (map Database.total_seconds
                  (filter (fun g => String.eqb (Database.row_app_name g) n) groups))
      + Tally.seconds (Tally.rowsOf n rows) /\
    Spec.sum (map Database.session_count
      (filter (fun g => String.eqb (Database.row_app_name g) n)
         (fold_left (fun gs r => Database.addToGroup (Database.app_name r)
                                   (Database.duration_seconds r) gs) rows groups)))
    = Spec.sum (map Database.session_count
                  (filter (fun g => String.eqb (Database.row_app_name g) n) groups))
      + Z.of_nat (List.length (Tally.rowsOf n rows))).
  { induction rows as [|r rows IH]; intros groups; cbn [fold_left].
    - unfold Tally.seconds, Tally.rowsOf. cbn. split; lia.
    - destruct (IH (Database.addToGroup (Database.app_name r)
                      (Database.duration_seconds r) groups)) as [IH1 IH2].
      destruct (addToGroup_tally (Database.app_name r) (Database.duration_seconds r) n groups)
        as [A1 A2].
      cbv zeta in A1, A2. rewrite IH1, IH2, A1, A2.
      unfold Tally.seconds, Tally.rowsOf. cbn [filter].
      destruct (String.eqb (Database.app_name r) n);
        cbn [map Spec.sum fold_right List.length]; unfold Spec.sum; split; lia. }
  destruct (H []) as [H1 H2]. cbn in H1, H2. split; [exact H1 | exact H2].
Qed.

Lemma groupByAppName_names (rows : list Database.UsageLog) (n : string) :
  In n (map Database.row_app_name (Database.groupByAppName rows))
  <-> In n (map Database.app_name rows).
Proof.
  unfold Database.groupByAppName.
  assert (H : forall groups, NoDup (map Database.row_app_name groups) ->
    NoDup (map Database.row_app_name
      (fold_left (fun gs r => Database.addToGroup (Database.app_name r)
                                (Database.duration_seconds r) gs) rows groups)) /\
    (In n (map Database.row_app_name
             (fold_left (fun gs r => Database.addToGroup (Database.app_name r)
                                       (Database.duration_seconds r) gs) rows groups))
     <-> In n (map Database.row_app_name groups) \/ In n (map Database.app_name rows))).
  { induction rows as [|r rows IH]; intros groups Hnd; cbn [fold_left map].
    - split; [exact Hnd |]. cbn. tauto.
    - destruct (addToGroup_names (Database.app_name r) (Database.duration_seconds r)
                  groups Hnd) as [Hnd' Hin].
      destruct (IH _ Hnd') as [Hnd'' Hin'']. split; [exact Hnd'' |].
      rewrite Hin'', Hin. cbn [In]. intuition. }
  destruct (H [] ltac:(constructor)) as [_ Hin]. rewrite Hin. cbn. tauto.
Qed.

(** In a list of rows with one row to a name, the rows of a name are that
    one. *)
Lemma filter_named_NoDup (g : Database.Row) (groups : list Database.Row) :
  NoDup (map Database.row_app_name groups) -> In g groups ->
  filter (fun x => String.eqb (Database.row_app_name x) (Database.row_app_name g)) groups
  = [g].
Proof.
  induction groups as [|x groups IH]; intros Hnd Hin; [destruct Hin |].
  cbn [map] in Hnd. inversion Hnd as [|? ? Hnotin Hnd']; subst.
  cbn [filter]. destruct Hin as [->|Hin].
  - rewrite String.eqb_refl. f_equal.
    assert (Hnone : forall l, ~ In (Database.row_app_name g) (map Database.row_app_name l) ->
              filter (fun y => String.eqb (Database.row_app_name y) (Database.row_app_name g)) l
              = []).
    { induction l as [|y l IHl]; intros Hn; [reflexivity |]. cbn [filter].
      destruct (String.eqb_spec (Database.row_app_name y) (Database.row_app_name g)) as [E|E].
      - exfalso. apply Hn. left. exact E.
      - apply IHl. intros H. apply Hn. right. exact H. }
    now apply Hnone.
  - destruct (String.eqb_spec (Database.row_app_name x) (Database.row_app_name g)) as [E|E].
    + exfalso. apply Hnotin. rewrite E. now apply in_map.
    + now apply IH.
Qed.

Lemma apps_names (totalTime : Z) (rows : list Database.Row) :
  map FormattedRow.appName (map (Database.formatRow totalTime) rows)
  = map Database.row_app_name rows.
Proof. rewrite map_map. apply map_ext. reflexivity. Qed.

(** The row of the result set for an application holds the seconds and the
    number of the rows selected for it. *)
Lemma grouped_tally (selected : list Database.UsageLog) (g : Database.Row) :
  In g (Database.orderByTotalDesc (Database.groupByAppName selected)) ->
  Database.total_seconds g = Tally.seconds (Tally.rowsOf (Database.row_app_name g) selected) /\
  Database.session_count g
  = Z.of_nat (List.length (Tally.rowsOf (Database.row_app_name g) selected)) /\
  1 <= Database.session_count g.
Proof.
  intros Hin.
  apply (Permutation_in _ (Permutation_sym (orderByTotalDesc_perm _))) in Hin.
  pose proof (filter_named_NoDup g _ (groupByAppName_NoDup selected) Hin) as Hone.
  destruct (groupByAppName_tally (Database.row_app_name g) selected) as [Hsec Hcount].
  cbv zeta in Hsec, Hcount. rewrite Hone in Hsec, Hcount.
  cbn [map Spec.sum fold_right] in Hsec, Hcount.
  assert (Hname : In (Database.row_app_name g) (map Database.app_name selected)).
  { apply groupByAppName_names. now apply in_map. }
  apply in_map_iff in Hname. destruct Hname as (r & Hr & Hrin).
  assert (Hmember : In r (Tally.rowsOf (Database.row_app_name g) selected)).
  { unfold Tally.rowsOf. apply filter_In. split; [exact Hrin |]. now apply String.eqb_eq. }
  split; [lia |]. split; [lia |].
  destruct (Tally.rowsOf (Database.row_app_name g) selected); [destruct Hmember |].
  cbn [List.length] in Hcount. lia.
Qed.

(** X9.  What [getUsageStats] says of each application.  The applications
    returned are those that have a row in the period, each once; the
    [totalSeconds] of an application is the sum of the durations of its
    rows in the period, its [sessionCount] their number, one or more, and
    its [totalTime] is [formatDuration(totalSeconds)]. *)
Theorem getUsageStats_per_app
    (clock : Z) (period : string) (db : Database.t) (stats : Database.UsageStats) :
  Database.getUsageStats clock SQLITE_OK period db = Resolved stats ->
  let selected :=
    filter (Database.selects (Database.queryOf clock period)) (Database.usage_logs db) in
  NoDup (map FormattedRow.appName (Database.apps stats)) /\
  (forall name, In name (map FormattedRow.appName (Database.apps stats))
                <-> In name (map Database.app_name selected)) /\
  Forall (fun app =>
            FormattedRow.totalSeconds app
            = Tally.seconds (Tally.rowsOf (FormattedRow.appName app) selected) /\
            FormattedRow.sessionCount app
            = Z.of_nat (List.length (Tally.rowsOf (FormattedRow.appName app) selected)) /\
            1 <= FormattedRow.sessionCount app /\
            FormattedRow.totalTime app
            = Database.formatDuration (FormattedRow.totalSeconds app))
         (Database.apps stats).
Proof.
  intros Hres selected. apply getUsageStats_resolved in Hres. cbv zeta in Hres.
  destruct Hres as (Happs & _). rewrite Happs, apps_names.
  unfold Database.all. fold selected. clearbody selected.
  assert (Hperm : Permutation (Database.groupByAppName selected)
                    (Database.orderByTotalDesc (Database.groupByAppName selected)))
    by apply orderByTotalDesc_perm.
  split; [| split].
  - apply (Permutation_NoDup (Permutation_map _ Hperm)). apply groupByAppName_NoDup.
  - intros name. rewrite <- groupByAppName_names. split; intros Hin.
    + exact (Permutation_in _ (Permutation_sym (Permutation_map _ Hperm)) Hin).
    + exact (Permutation_in _ (Permutation_map _ Hperm) Hin).
  - apply Forall_map, Forall_forall. intros g Hg.
    destruct (grouped_tally selected g Hg) as (Hsec & Hcount & Hone).
    cbn [Database.formatRow FormattedRow.totalSeconds FormattedRow.sessionCount
         FormattedRow.appName FormattedRow.totalTime].
    repeat split; assumption.
Qed.

(** Safari twice and Mail once today, Xcode yesterday. *)
Lemma getUsageStats_per_app_witness :
  exists stats,
    Database.getUsageStats 1704070800000 SQLITE_OK "today"
      (Database.mk [Database.mkUsageLog 1 "Safari" 40 1704067200 "2024-01-01";
                    Database.mkUsageLog 2 "Xcode" 500 1703980800 "2023-12-31";
                    Database.mkUsageLog 3 "Mail" 61 1704067300 "2024-01-01";
                    Database.mkUsageLog 4 "Safari" 25 1704067400 "2024-01-01"] 4)
    = Resolved stats /\
    NoDup (map FormattedRow.appName (Database.apps stats)) /\
    map (fun app => (FormattedRow.appName app, FormattedRow.totalSeconds app,
                     FormattedRow.sessionCount app)) (Database.apps stats)
    = [("Safari", 65, 2); ("Mail", 61, 1)].
Proof.
  eexists. split; [vm_compute; reflexivity |]. split; [| reflexivity].
  match goal with
  | |- NoDup (map _ (Database.apps ?s)) =>
      pose proof
        (getUsageStats_per_app 1704070800000 "today"
           (Database.mk [Database.mkUsageLog 1 "Safari" 40 1704067200 "2024-01-01";
                         Database.mkUsageLog 2 "Xcode" 500 1703980800 "2023-12-31";
                         Database.mkUsageLog 3 "Mail" 61 1704067300 "2024-01-01";
                         Database.mkUsageLog 4 "Safari" 25 1704067400 "2024-01-01"] 4) s
           ltac:(vm_compute; reflexivity)) as H
  end.
  exact (proj1 H).
Defined.

(** ** Dates as text: the order of the strings is the order of the days *)

Lemma Ascii_compare_digitOf (c1 c2 : ascii) :
  Ascii.compare c1 c2 = Z.compare (Tally.digitOf c1) (Tally.digitOf c2).
Proof.
  unfold Ascii.compare, Tally.digitOf, nat_of_ascii.
  rewrite !N_nat_Z, <- (N2Z.inj_compare (N_of_ascii c1) (N_of_ascii c2)).
  destruct (Z.compare_spec (Z.of_N (N_of_ascii c1)) (Z.of_N (N_of_ascii c2)));
    symmetry; [apply Z.compare_eq_iff | apply Z.compare_lt_iff | apply Z.compare_gt_iff]; lia.
Qed.

Lemma digitOf_digit (c : ascii) :
  Spec.isDigit c = true -> 0 <= Tally.digitOf c <= 9.
Proof.
  unfold Spec.isDigit, Tally.digitOf. intros H. apply andb_prop in H.
  destruct H as [Hlo Hhi]. apply Nat.leb_le in Hlo, Hhi. lia.
Qed.

Lemma valueOf_bound (s : string) :
  Spec.allDigits s = true -> 0 <= Tally.valueOf s < 10 ^ Z.of_nat (String.length s).
Proof.
  induction s as [|c s IH]; cbn [Spec.allDigits Tally.valueOf String.length]; intros H.
  - cbn. lia.
  - apply andb_prop in H. destruct H as [Hc Hs]. specialize (IH Hs).
    pose proof (digitOf_digit c Hc) as Hd.
    rewrite Nat2Z.inj_succ, Z.pow_succ_r by lia.
    set (P := 10 ^ Z.of_nat (String.length s)) in *. nia.
Qed.

(** Strings of digits of one length compare as their values. *)
Lemma compare_digits (s1 s2 : string) :
  String.length s1 = String.length s2 ->
  Spec.allDigits s1 = true -> Spec.allDigits s2 = true ->
  String.compare s1 s2 = Z.compare (Tally.valueOf s1) (Tally.valueOf s2).
Proof.
  revert s2. induction s1 as [|c1 s1 IH]; intros [|c2 s2] Hlen H1 H2;
    try discriminate Hlen; [reflexivity |].
  cbn [String.length] in Hlen. injection Hlen as Hlen.
  cbn [Spec.allDigits] in H1, H2. apply andb_prop in H1, H2.
  destruct H1 as [Hc1 Hs1], H2 as [Hc2 Hs2].
  cbn [String.compare Tally.valueOf]. rewrite Ascii_compare_digitOf, (IH s2 Hlen Hs1 Hs2).
  pose proof (valueOf_bound s1 Hs1) as B1. pose proof (valueOf_bound s2 Hs2) as B2.
  rewrite Hlen in *. set (P := 10 ^ Z.of_nat (String.length s2)) in *.
  set (v1 := Tally.valueOf s1) in *. set (v2 := Tally.valueOf s2) in *.
  set (d1 := Tally.digitOf c1). set (d2 := Tally.digitOf c2).
  destruct (Z.compare_spec d1 d2) as [E|L|G].
  - rewrite E. destruct (Z.compare_spec v1 v2);
      symmetry; [apply Z.compare_eq_iff | apply Z.compare_lt_iff | apply Z.compare_gt_iff]; lia.
  - symmetry. apply Z.compare_lt_iff. nia.
  - symmetry. apply Z.compare_gt_iff. nia.
Qed.

(** After prefixes of one length the comparison goes on with the rest. *)
Lemma compare_append (a1 a2 b1 b2 : string) :
  String.length a1 = String.length a2 ->
  String.compare (a1 ++ b1) (a2 ++ b2)
  = match String.compare a1 a2 with
    | Eq => String.compare b1 b2
    | other => other
    end.
Proof.
  revert a2. induction a1 as [|c1 a1 IH]; intros [|c2 a2] Hlen;
    try discriminate Hlen; [reflexivity |].
  cbn [String.length] in Hlen. injection Hlen as Hlen.
  cbn [append String.compare]. destruct (Ascii.compare c1 c2); [now apply IH | |]; reflexivity.
Qed.

(** A number below 10000 padded to four digits, or below 100 padded to
    two, has the number for value: by enumeration. *)
Lemma padStart_value_upto :
  forallb (fun n => (Tally.valueOf (Js.padStart 4 (Z.of_nat n)) =? Z.of_nat n) &&
                    (if (n <? 100)%nat
                     then Tally.valueOf (Js.padStart 2 (Z.of_nat n)) =? Z.of_nat n
                     else true))
          (seq 0 (Z.to_nat 10000)) = true.
Proof. vm_compute. reflexivity. Qed.

Lemma padStart_four_value (n : Z) :
  0 <= n <= 9999 -> Tally.valueOf (Js.padStart 4 n) = n.
Proof.
  intros Hn.
  assert (Hin : In (Z.to_nat n) (seq 0 (Z.to_nat 10000))) by (apply in_seq; lia).
  pose proof (proj1 (forallb_forall _ _) padStart_value_upto _ Hin) as H.
  cbv beta in H. rewrite Z2Nat.id in H by lia.
  apply andb_prop in H. now apply Z.eqb_eq.
Qed.

Lemma padStart_two_value (n : Z) :
  0 <= n <= 99 -> Tally.valueOf (Js.padStart 2 n) = n.
Proof.
  intros Hn.
  assert (Hin : In (Z.to_nat n) (seq 0 (Z.to_nat 10000))) by (apply in_seq; lia).
  pose proof (proj1 (forallb_forall _ _) padStart_value_upto _ Hin) as H.
  cbv beta in H. rewrite Z2Nat.id in H by lia.
  assert (Hlt : (Z.to_nat n <? 100)%nat = true) by (apply Nat.ltb_lt; lia).
  rewrite Hlt in H. apply andb_prop in H. now apply Z.eqb_eq.
Qed.

Lemma digits_parts (width : nat) (s : string) :
  Spec.digits width s = true -> String.length s = width /\ Spec.allDigits s = true.
Proof.
  unfold Spec.digits. intros H. apply andb_prop in H. destruct H as [L D].
  apply Nat.eqb_eq in L. now split.
Qed.

Lemma padStart_compare (width : nat) (n1 n2 : Z) :
  (width = 4%nat /\ 0 <= n1 <= 9999 /\ 0 <= n2 <= 9999) \/
  (width = 2%nat /\ 0 <= n1 <= 99 /\ 0 <= n2 <= 99) ->
  String.length (Js.padStart width n1) = String.length (Js.padStart width n2) /\
  String.compare (Js.padStart width n1) (Js.padStart width n2) = Z.compare n1 n2.
Proof.
  intros [(-> & H1 & H2)|(-> & H1 & H2)].
  - destruct (digits_parts _ _ (padStart_four_digits n1 H1)) as [L1 D1].
    destruct (digits_parts _ _ (padStart_four_digits n2 H2)) as [L2 D2].
    split; [congruence |].
    rewrite compare_digits by congruence.
    now rewrite !padStart_four_value.
  - destruct (digits_parts _ _ (padStart_two_digits n1 H1)) as [L1 D1].
    destruct (digits_parts _ _ (padStart_two_digits n2 H2)) as [L2 D2].
    split; [congruence |].
    rewrite compare_digits by congruence.
    now rewrite !padStart_two_value.
Qed.

Lemma MonthStart_mono (leap m m' : Z) :
  0 <= leap <= 1 -> 1 <= m <= m' -> m' <= 13 ->
  Js.MonthStart leap m <= Js.MonthStart leap m'.
Proof.
  intros Hleap Hm Hm'.
  assert (Hc : m = 1 \/ m = 2 \/ 3 <= m) by lia.
  assert (Hc' : m' = 1 \/ m' = 2 \/ 3 <= m') by lia.
  destruct Hc as [->|[->|Hc]], Hc' as [->|[->|Hc']]; try lia;
    change (Js.MonthStart leap 1) with 0; change (Js.MonthStart leap 2) with 31;
    rewrite ?MonthStart_from_march by lia;
    Z.to_euclidean_division_equations; lia.
Qed.

(** Dates compare, year first, then month, then day, as their day numbers
    do. *)
Lemma civilFromDays_compare (day1 day2 : Z) :
  let '(y1, m1, d1) := Js.civilFromDays day1 in
  let '(y2, m2, d2) := Js.civilFromDays day2 in
  match Z.compare y1 y2 with
  | Eq => match Z.compare m1 m2 with
          | Eq => Z.compare d1 d2
          | other => other
          end
  | other => other
  end = Z.compare day1 day2.
Proof.
  pose proof (civilFromDays_ecma day1) as H1. pose proof (civilFromDays_ecma day2) as H2.
  destruct (Js.civilFromDays day1) as [[y1 m1] d1].
  destruct (Js.civilFromDays day2) as [[y2 m2] d2].
  destruct H1 as (Hy1 & Hm1 & Hs1 & Hd1), H2 as (Hy2 & Hm2 & Hs2 & Hd2).
  destruct (Z.compare_spec y1 y2) as [Ey|Ly|Gy].
  - subst y2. pose proof (InLeapYear_bit y1) as Hbit.
    destruct (Z.compare_spec m1 m2) as [Em|Lm|Gm].
    + subst m2. destruct (Z.compare_spec d1 d2);
        symmetry; [apply Z.compare_eq_iff | apply Z.compare_lt_iff | apply Z.compare_gt_iff]; lia.
    + pose proof (MonthStart_mono (Js.InLeapYear y1) (m1 + 1) m2 Hbit ltac:(lia) ltac:(lia)).
      symmetry. apply Z.compare_lt_iff. lia.
    + pose proof (MonthStart_mono (Js.InLeapYear y1) (m2 + 1) m1 Hbit ltac:(lia) ltac:(lia)).
      symmetry. apply Z.compare_gt_iff. lia.
  - pose proof (DayFromYear_mono (y1 + 1) y2 ltac:(lia)).
    symmetry. apply Z.compare_lt_iff. lia.
  - pose proof (DayFromYear_mono (y2 + 1) y1 ltac:(lia)).
    symmetry. apply Z.compare_gt_iff. lia.
Qed.

(** From year 0 to year 9999 the dates that [toISOString] writes compare, as
    text, as the days they are of. *)
Lemma toISODate_compare (clock1 clock2 : Z) :
  -62167219200000 <= clock1 < 253402300800000 ->
  -62167219200000 <= clock2 < 253402300800000 ->
  String.compare (Js.toISODate clock1) (Js.toISODate clock2)
  = Z.compare (Js.Day clock1) (Js.Day clock2).
Proof.
  intros Hr1 Hr2.
  pose proof (civilFromDays_four_digit_year clock1 Hr1) as B1.
  pose proof (civilFromDays_four_digit_year clock2 Hr2) as B2.
  pose proof (civilFromDays_compare (Js.Day clock1) (Js.Day clock2)) as Hcmp.
  unfold Js.toISODate.
  destruct (Js.civilFromDays (Js.Day clock1)) as [[y1 m1] d1].
  destruct (Js.civilFromDays (Js.Day clock2)) as [[y2 m2] d2].
  destruct B1 as (Hy1 & Hm1 & Hd1), B2 as (Hy2 & Hm2 & Hd2).
  unfold Js.isoYear.
  replace ((0 <=? y1) && (y1 <=? 9999)) with true
    by (symmetry; apply andb_true_intro; split; apply Z.leb_le; lia).
  replace ((0 <=? y2) && (y2 <=? 9999)) with true
    by (symmetry; apply andb_true_intro; split; apply Z.leb_le; lia).
  destruct (padStart_compare 4 y1 y2) as [Ly Cy]; [left; lia |].
  destruct (padStart_compare 2 m1 m2) as [Lm Cm]; [right; lia |].
  destruct (padStart_compare 2 d1 d2) as [Ld Cd]; [right; lia |].
  rewrite (compare_append _ _ _ _ Ly), Cy.
  rewrite (compare_append "-" "-") by reflexivity. cbn [String.compare Ascii.compare].
  change (N.compare (N_of_ascii "-") (N_of_ascii "-")) with Eq. cbv iota.
  rewrite (compare_append _ _ _ _ Lm), Cm.
  rewrite (compare_append "-" "-") by reflexivity. cbn [String.compare Ascii.compare].
  change (N.compare (N_of_ascii "-") (N_of_ascii "-")) with Eq. cbv iota.
  rewrite Cd. exact Hcmp.
Qed.

Lemma Day_days_before (clock days : Z) :
  Js.Day (clock - days * 86400000) = Js.Day clock - days.
Proof.
  unfold Js.Day. change Js.msPerDay with 86400000.
  replace (clock - days * 86400000) with (clock + (- days) * 86400000) by lia.
  rewrite Z.div_add by lia. lia.
Qed.

Lemma String_compare_refl (s : string) : String.compare s s = Eq.
Proof.
  induction s as [|c s IH]; [reflexivity |]. cbn [String.compare].
  unfold Ascii.compare. now rewrite N.compare_refl.
Qed.

Lemma toISODate_eqb (clock1 clock2 : Z) :
  -62167219200000 <= clock1 < 253402300800000 ->
  -62167219200000 <= clock2 < 253402300800000 ->
  (String.eqb (Js.toISODate clock1) (Js.toISODate clock2) = true
   <-> Js.Day clock1 = Js.Day clock2).
Proof.
  intros H1 H2. rewrite String.eqb_eq. split.
  - intros E. apply Z.compare_eq_iff. rewrite <- (toISODate_compare _ _ H1 H2), E.
    apply String_compare_refl.
  - intros E. unfold Js.toISODate. now rewrite E.
Qed.

Lemma toISODate_leb (clock1 clock2 : Z) :
  -62167219200000 <= clock1 < 253402300800000 ->
  -62167219200000 <= clock2 < 253402300800000 ->
  (String.leb (Js.toISODate clock1) (Js.toISODate clock2) = true
   <-> Js.Day clock1 <= Js.Day clock2).
Proof.
  intros H1 H2. unfold String.leb. rewrite (toISODate_compare _ _ H1 H2).
  destruct (Z.compare_spec (Js.Day clock1) (Js.Day clock2)); split; intros; try lia;
    try reflexivity; discriminate.
Qed.

Lemma queryOf_week (clock : Z) :
  Database.queryOf clock "week" = Database.DateGe (Js.toISODate (clock - 7 * 86400000)).
Proof. reflexivity. Qed.

(** A row logged on the day of the query is selected by ['today'], by
    ['week'] and by ['all']. *)
Lemma same_day_is_selected (query clock : Z) (period : string) (row : Database.UsageLog) :
  Database.date row = Js.toISODate clock ->
  -62167219200000 <= clock < 253402300800000 ->
  -62167219200000 <= query - 7 * 86400000 -> query < 253402300800000 ->
  Js.Day query = Js.Day clock ->
  period = "today" \/ period = "week" \/ period = "all" ->
  Database.selects (Database.queryOf query period) row = true.
Proof.
  intros Hdate Hclock Hlo Hhi Hday [->|[->| ->]].
  - change (Database.queryOf query "today") with (Database.DateEq (Js.toISODate query)).
    cbn [Database.selects]. rewrite Hdate. apply String.eqb_eq.
    unfold Js.toISODate. rewrite Hday. reflexivity.
  - rewrite queryOf_week. cbn [Database.selects]. rewrite Hdate.
    apply toISODate_leb; [lia | exact Hclock |]. rewrite Day_days_before. lia.
  - reflexivity.
Qed.

(** X10.  What the periods select, in days: for a row dated by [logUsage]
    at [logged] and a query made at [clock] (between year 0 and year
    9999), ['today'] selects the row when it was logged on the same day of
    UTC, ['yesterday'] when on the day before, ['week'] when on any day
    from seven days before on, the day of the query included (eight days,
    and any later one), and ['all'] always.  The text comparison
    [date >= ?] is that of the days. *)
Theorem periods_select_by_day (clock logged : Z) (row : Database.UsageLog) :
  Database.date row = Js.toISODate logged ->
  -62167219200000 <= logged < 253402300800000 ->
  -62167219200000 <= clock - 7 * 86400000 -> clock < 253402300800000 ->
  (Database.selects (Database.queryOf clock "today") row = true
   <-> Js.Day logged = Js.Day clock) /\
  (Database.selects (Database.queryOf clock "yesterday") row = true
   <-> Js.Day logged = Js.Day clock - 1) /\
  (Database.selects (Database.queryOf clock "week") row = true
   <-> Js.Day clock - 7 <= Js.Day logged) /\
  Database.selects (Database.queryOf clock "all") row = true.
Proof.
  intros Hdate Hlogged Hlo Hhi.
  unfold Database.queryOf.
  change (String.eqb "today" "today") with true.
  change (String.eqb "yesterday" "today") with false.
  change (String.eqb "yesterday" "yesterday") with true.
  change (String.eqb "week" "today") with false.
  change (String.eqb "week" "yesterday") with false.
  change (String.eqb "week" "week") with true.
  change (String.eqb "all" "today") with false.
  change (String.eqb "all" "yesterday") with false.
  change (String.eqb "all" "week") with false.
  change (String.eqb "all" "all") with true.
  cbv iota. cbn [Database.selects]. rewrite Hdate.
  change (24 * 60 * 60 * 1000) with (1 * 86400000).
  change (7 * 24 * 60 * 60 * 1000) with (7 * 86400000).
  split; [| split; [| split; [| reflexivity]]].
  - apply toISODate_eqb; lia.
  - rewrite toISODate_eqb, Day_days_before by lia. reflexivity.
  - rewrite toISODate_leb, Day_days_before by lia. reflexivity.
Qed.

(** A query at 01:00 on 1 January 2024 and a row logged at 23:59:59 on 25
    December 2023, seven days before. *)
Lemma periods_select_by_day_witness :
  let row := Database.mkUsageLog 1 "Safari" 60 1703548799 "2023-12-25" in
  Database.selects (Database.queryOf 1704070800000 "week") row = true /\
  Js.Day 1704070800000 - 7 <= Js.Day 1703548799000.
Proof.
  intros row.
  destruct (periods_select_by_day 1704070800000 1703548799000 row)
    as (_ & _ & Hweek & _); [vm_compute; reflexivity | lia | lia | lia |].
  assert (Hday : Js.Day 1704070800000 - 7 <= Js.Day 1703548799000)
    by (vm_compute; discriminate).
  split; [apply Hweek; exact Hday | exact Hday].
Defined.

(** ** What is logged is counted *)

Lemma grouped_sum (selected : list Database.UsageLog) :
  Spec.sum (map Database.total_seconds
              (Database.orderByTotalDesc (Database.groupByAppName selected)))
  = Tally.seconds selected.
Proof.
  rewrite <- (sum_perm _ _ (Permutation_map _ (orderByTotalDesc_perm _))).
  apply groupByAppName_sum.
Qed.

Lemma grouped_has (selected : list Database.UsageLog) (r : Database.UsageLog) :
  In r selected ->
  exists g, In g (Database.orderByTotalDesc (Database.groupByAppName selected)) /\
            Database.row_app_name g = Database.app_name r.
Proof.
  intros Hin.
  assert (Hname : In (Database.app_name r)
                     (map Database.row_app_name (Database.groupByAppName selected))).
  { apply groupByAppName_names. now apply in_map. }
  apply in_map_iff in Hname. destruct Hname as (g & Hg & Hgin).
  exists g. split; [| exact Hg].
  exact (Permutation_in _ (orderByTotalDesc_perm _) Hgin).
Qed.



(** ** getDailyStats *)

Lemma String_compare_lt_trans (a b c : string) :
  String.compare a b = Lt -> String.compare b c = Lt -> String.compare a c = Lt.
Proof.
  revert b c. induction a as [|x a IH]; intros [|y b] [|z c]; cbn [String.compare];
    try congruence.
  unfold Ascii.compare.
  destruct (N.compare_spec (N_of_ascii x) (N_of_ascii y)) as [Exy|Lxy|Gxy],
           (N.compare_spec (N_of_ascii y) (N_of_ascii z)) as [Eyz|Lyz|Gyz],
           (N.compare_spec (N_of_ascii x) (N_of_ascii z)) as [Exz|Lxz|Gxz];
    try congruence; try lia; intros; eauto.
Qed.

Lemma String_ltb_trans (a b c : string) :
  String.ltb a b = true -> String.ltb b c = true -> String.ltb a c = true.
Proof.
  unfold String.ltb. intros Hab Hbc.
  destruct (String.compare a b) eqn:Eab; try discriminate Hab.
  destruct (String.compare b c) eqn:Ebc; try discriminate Hbc.
  now rewrite (String_compare_lt_trans a b c Eab Ebc).
Qed.

(** Of two different strings one is before the other. *)
Lemma String_ltb_total (a b : string) :
  a <> b -> String.ltb a b = false -> String.ltb b a = true.
Proof.
  unfold String.ltb. intros Hne Hab. rewrite String.compare_antisym.
  destruct (String.compare a b) eqn:E; try discriminate Hab; [| reflexivity].
  apply String.compare_eq_iff in E. contradiction.
Qed.

Lemma daily_insertDesc_In (r x : DailyStats.Row) (l : list DailyStats.Row) :
  In x (DailyStats.insertDesc r l) <-> x = r \/ In x l.
Proof.
  induction l as [|y l IH]; cbn [DailyStats.insertDesc].
  - cbn. intuition.
  - destruct (String.ltb (DailyStats.row_date r) (DailyStats.row_date y)); cbn [In];
      rewrite ?IH; intuition.
Qed.

Lemma daily_insertDesc_perm (r : DailyStats.Row) (l : list DailyStats.Row) :
  Permutation (r :: l) (DailyStats.insertDesc r l).
Proof.
  induction l as [|y l IH]; cbn [DailyStats.insertDesc]; [reflexivity |].
  destruct (String.ltb (DailyStats.row_date r) (DailyStats.row_date y)); [| reflexivity].
  rewrite perm_swap. now constructor.
Qed.

Lemma orderByDateDesc_perm (rows : list DailyStats.Row) :
  Permutation rows (DailyStats.orderByDateDesc rows).
Proof.
  induction rows as [|r rows IH]; cbn [DailyStats.orderByDateDesc fold_right]; [constructor |].
  rewrite <- daily_insertDesc_perm. now constructor.
Qed.

(** Rows of different dates come out of ORDER BY date DESC with every date
    strictly after the dates that follow it. *)
Lemma orderByDateDesc_sorted (rows : list DailyStats.Row) :
  NoDup (map DailyStats.row_date rows) ->
  StronglySorted
    (fun x y => String.ltb (DailyStats.row_date y) (DailyStats.row_date x) = true)
    (DailyStats.orderByDateDesc rows).
Proof.
  induction rows as [|r rows IH]; cbn [map DailyStats.orderByDateDesc fold_right];
    intros Hnd; [constructor |].
  inversion Hnd as [|? ? Hnotin Hnd']; subst. specialize (IH Hnd').
  fold (DailyStats.orderByDateDesc rows).
  assert (Hfresh : forall x, In x (DailyStats.orderByDateDesc rows) ->
                             DailyStats.row_date r <> DailyStats.row_date x).
  { intros x Hx E. apply Hnotin. rewrite E. apply in_map.
    exact (Permutation_in _ (Permutation_sym (orderByDateDesc_perm rows)) Hx). }
  induction IH as [|y l Hsorted IHl Hall]; cbn [DailyStats.insertDesc].
  - repeat constructor.
  - destruct (String.ltb (DailyStats.row_date r) (DailyStats.row_date y)) eqn:Ery.
    + constructor.
      * apply IHl. intros x Hx. apply Hfresh. now right.
      * apply Forall_forall. intros x Hx. apply daily_insertDesc_In in Hx.
        destruct Hx as [->|Hx]; [exact Ery |].
        rewrite Forall_forall in Hall. now apply Hall.
    + assert (Hyr : String.ltb (DailyStats.row_date y) (DailyStats.row_date r) = true).
      { apply String_ltb_total; [| exact Ery]. apply Hfresh. now left. }
      constructor; [now constructor |].
      constructor; [exact Hyr |].
      apply Forall_forall. intros x Hx. rewrite Forall_forall in Hall.
      exact (String_ltb_trans _ _ _ (Hall x Hx) Hyr).
Qed.

Lemma addToDate_tally (day : string) (seconds : Z) (n : string)
    (groups : list DailyStats.Row) :
  Spec.sum (map DailyStats.total_seconds
              (filter (fun g => String.eqb (DailyStats.row_date g) n)
                      (DailyStats.addToDate day seconds groups)))
  = Spec.sum (map DailyStats.total_seconds
                (filter (fun g => String.eqb (DailyStats.row_date g) n) groups))
    + (if String.eqb day n then seconds else 0).
Proof.
  induction groups as [|g groups IH]; cbn [DailyStats.addToDate].
  - cbn [filter DailyStats.row_date]. destruct (String.eqb day n); cbn; lia.
  - destruct (String.eqb_spec (DailyStats.row_date g) day) as [E|E].
    + cbn [filter DailyStats.row_date]. rewrite E.
      destruct (String.eqb day n);
        cbn [map Spec.sum fold_right DailyStats.total_seconds]; lia.
    + cbn [filter]. destruct (String.eqb (DailyStats.row_date g) n);
        cbn [map Spec.sum fold_right]; unfold Spec.sum in *; lia.
Qed.

Lemma addToDate_dates (day : string) (seconds : Z) (groups : list DailyStats.Row) :
  NoDup (map DailyStats.row_date groups) ->
  NoDup (map DailyStats.row_date (DailyStats.addToDate day seconds groups)) /\
  (forall n, In n (map DailyStats.row_date (DailyStats.addToDate day seconds groups))
             <-> n = day \/ In n (map DailyStats.row_date groups)).
Proof.
  induction groups as [|g groups IH]; cbn [DailyStats.addToDate map]; intros Hnd.
  - split; [repeat constructor; intros [] | cbn; intuition].
  - inversion Hnd as [|? ? Hnotin Hnd']; subst.
    destruct (String.eqb_spec (DailyStats.row_date g) day) as [E|E]; cbn [map].
    + subst day. split; [now constructor | cbn; intuition].
    + destruct (IH Hnd') as [IHnd IHin]. split.
      * constructor; [| exact IHnd]. rewrite IHin. intuition.
      * intros n. cbn [In]. rewrite IHin. intuition.
Qed.

Lemma groupByDate_facts (n : string) (rows : list Database.UsageLog) :
  NoDup (map DailyStats.row_date (DailyStats.groupByDate rows)) /\
  (In n (map DailyStats.row_date (DailyStats.groupByDate rows))
   <-> In n (map Database.date rows)) /\
  Spec.sum (map DailyStats.total_seconds
              (filter (fun g => String.eqb (DailyStats.row_date g) n)
                      (DailyStats.groupByDate rows)))
  = Tally.seconds (Tally.rowsOn n rows) /\
  Spec.sum (map DailyStats.total_seconds (DailyStats.groupByDate rows))
  = Tally.seconds rows.
Proof.
  unfold DailyStats.groupByDate.
  assert (H : forall groups, NoDup (map DailyStats.row_date groups) ->
    let result := fold_left (fun gs r => DailyStats.addToDate (Database.date r)
                                           (Database.duration_seconds r) gs) rows groups in
    NoDup (map DailyStats.row_date result) /\
    (In n (map DailyStats.row_date result)
     <-> In n (map DailyStats.row_date groups) \/ In n (map Database.date rows)) /\
    Spec.sum (map DailyStats.total_seconds
                (filter (fun g => String.eqb (DailyStats.row_date g) n) result))
    = Spec.sum (map DailyStats.total_seconds
                  (filter (fun g => String.eqb (DailyStats.row_date g) n) groups))
      + Tally.seconds (Tally.rowsOn n rows) /\
    Spec.sum (map DailyStats.total_seconds result)
    = Spec.sum (map DailyStats.total_seconds groups) + Tally.seconds rows).
  { induction rows as [|r rows IH]; intros groups Hnd; cbv zeta; cbn [fold_left map].
    - unfold Tally.seconds, Tally.rowsOn. cbn. repeat split; (tauto || lia || assumption).
    - destruct (addToDate_dates (Database.date r) (Database.duration_seconds r) groups Hnd)
        as [Hnd' Hin].
      destruct (IH _ Hnd') as (A & B & C & D). cbv zeta in B, C, D.
      split; [exact A |]. split; [rewrite B, Hin; cbn [In]; intuition |].
      rewrite C, D, addToDate_tally.
      assert (Hsum : Spec.sum (map DailyStats.total_seconds
                        (DailyStats.addToDate (Database.date r)
                           (Database.duration_seconds r) groups))
                     = Spec.sum (map DailyStats.total_seconds groups)
                       + Database.duration_seconds r).
      { clear. induction groups as [|g groups IHg]; cbn [DailyStats.addToDate]; [cbn; lia |].
        destruct (String.eqb (DailyStats.row_date g) (Database.date r));
          cbn [map Spec.sum fold_right DailyStats.total_seconds] in *;
          unfold Spec.sum in *; lia. }
      rewrite Hsum. unfold Tally.seconds, Tally.rowsOn. cbn [filter map].
      destruct (String.eqb (Database.date r) n);
        cbn [map Spec.sum fold_right]; unfold Spec.sum; split; lia. }
  destruct (H [] ltac:(constructor)) as (A & B & C & D). cbv zeta in B, C, D.
  split; [exact A |]. split; [rewrite B; cbn; tauto |].
  cbn in C, D. split; [exact C | exact D].
Qed.

Lemma filter_dated_NoDup (g : DailyStats.Row) (groups : list DailyStats.Row) :
  NoDup (map DailyStats.row_date groups) -> In g groups ->
  filter (fun x => String.eqb (DailyStats.row_date x) (DailyStats.row_date g)) groups = [g].
Proof.
  induction groups as [|x groups IH]; intros Hnd Hin; [destruct Hin |].
  cbn [map] in Hnd. inversion Hnd as [|? ? Hnotin Hnd']; subst.
  cbn [filter]. destruct Hin as [->|Hin].
  - rewrite String.eqb_refl. f_equal.
    assert (Hnone : forall l, ~ In (DailyStats.row_date g) (map DailyStats.row_date l) ->
              filter (fun y => String.eqb (DailyStats.row_date y) (DailyStats.row_date g)) l
              = []).
    { induction l as [|y l IHl]; intros Hn; [reflexivity |]. cbn [filter].
      destruct (String.eqb_spec (DailyStats.row_date y) (DailyStats.row_date g)) as [E|E].
      - exfalso. apply Hn. left. exact E.
      - apply IHl. intros H. apply Hn. right. exact H. }
    now apply Hnone.
  - destruct (String.eqb_spec (DailyStats.row_date x) (DailyStats.row_date g)) as [E|E].
    + exfalso. apply Hnotin. rewrite E. now apply in_map.
    + now apply IH.
Qed.

Lemma daily_dates (rows : list DailyStats.Row) :
  map DailyStats.date (map DailyStats.formatRow rows) = map DailyStats.row_date rows.
Proof. rewrite map_map. apply map_ext. reflexivity. Qed.



(** X13.  [getDailyStats(7)] and [getUsageStats('week')] cover the same
    rows: asked at the same time (between year 0 and year 9999), the
    [totalSeconds] of the days add up to the [totalSeconds] of the week. *)
Theorem daily_totals_add_up_to_week
    (clock : Z) (db : Database.t) (result : list DailyStats.t)
    (stats : Database.UsageStats) :
  -62167219200000 <= clock - 7 * 86400000 -> clock < 253402300800000 ->
  DailyStats.getDailyStats clock SQLITE_OK 7 db = Resolved result ->
  Database.getUsageStats clock SQLITE_OK "week" db = Resolved stats ->
  Spec.sum (map DailyStats.totalSeconds result) = Database.totalSeconds stats.
Proof.
  intros Hlo Hhi Hdaily Hweek.
  apply getUsageStats_resolved in Hweek. cbv zeta in Hweek.
  destruct Hweek as (_ & -> & _).
  cbn [DailyStats.getDailyStats] in Hdaily. injection Hdaily as <-.
  assert (Hsince : DailyStats.sqliteDate clock 7
                   = Some (Js.toISODate (clock - 7 * 86400000))).
  { unfold DailyStats.sqliteDate. change (Z.of_N 7) with 7.
    replace ((-62167219200000 <=? clock - 7 * 86400000)
             && (clock - 7 * 86400000 <? 253402300800000)) with true; [reflexivity |].
    symmetry. apply andb_true_intro. split; [apply Z.leb_le | apply Z.ltb_lt]; lia. }
  rewrite Hsince. unfold Database.all. rewrite queryOf_week, grouped_sum.
  generalize (Js.toISODate (clock - 7 * 86400000)). intros since.
  change (filter (DailyStats.selects (Some since)))
    with (filter (Database.selects (Database.DateGe since))).
  set (selected := filter _ (Database.usage_logs db)). clearbody selected.
  rewrite map_map.
  rewrite (map_ext _ DailyStats.total_seconds) by reflexivity.
  rewrite <- (sum_perm _ _ (Permutation_map _ (orderByDateDesc_perm _))).
  exact (proj2 (proj2 (proj2 (groupByDate_facts "" selected)))).
Qed.

(** The week of 1 January 2024. *)
Lemma daily_totals_add_up_to_week_witness :
  let db := Database.mk [Database.mkUsageLog 1 "Safari" 40 1703721600 "2023-12-28";
                         Database.mkUsageLog 2 "Xcode" 500 1701388800 "2023-12-01";
                         Database.mkUsageLog 3 "Mail" 61 1704067300 "2024-01-01"] 3 in
  exists result stats,
    DailyStats.getDailyStats 1704070800000 SQLITE_OK 7 db = Resolved result /\
    Database.getUsageStats 1704070800000 SQLITE_OK "week" db = Resolved stats /\
    Spec.sum (map DailyStats.totalSeconds result) = Database.totalSeconds stats /\
    Database.totalSeconds stats = 101.
Proof.
  intros db. eexists _, _.
  split; [vm_compute; reflexivity |]. split; [vm_compute; reflexivity |].
  split; [| reflexivity].
  apply (daily_totals_add_up_to_week 1704070800000 db); try lia; vm_compute; reflexivity.
Defined.
